(** * japa: the slim runner and the jUnit list reporter

    A shallow embedding of the two source files of the repository:

    - the slim runner, [@module SlimRunner] (module [SlimRunner] below):
      the declaration API ([test], [test.group], [test.configure], ...)
      and [run];
    - [src/Reporter/jUnitList.ts] (module [JUnitList] below): the reporter
      class [Min] and its event handlers.

    The [let] variables of a module and the fields of an object become
    fields of a state record that is threaded through every function.
    Exceptions, promise rejections and [process.exit] are the results of a
    small state-and-exception monad. Collaborators that are not part of
    the two files (the [Runner], [Group] and [Loader] classes, the npm
    packages [chalk], [ms], [right-pad], [variable-diff], [xml2json], the
    callbacks of the user) are fields of an environment record or, where
    the specification describes them, small models marked as such. *)

From Stdlib Require Import ZArith Lia List String Ascii Bool.
From stdpp Require Import base list strings pretty.
Import ListNotations.

Open Scope string_scope.
Open Scope Z_scope.

(** ** JavaScript values

    The fragment of JavaScript values that the two files inspect
    dynamically: caught exceptions are tested for truthiness, and the
    [actual] / [expected] fields of an assertion error are compared with
    [undefined]. Numbers are integral here (milliseconds, counters, days of
    the month). *)

Inductive JsVal : Type :=
| JUndefined
| JNull
| JBool (b : bool)
| JNum (n : Z)
| JStr (s : string)
| JError (message : string).

(** [ToBoolean] of ECMAScript on this fragment. *)
Definition truthy (v : JsVal) : bool :=
  match v with
  | JUndefined | JNull => false
  | JBool b => b
  | JNum n => negb (n =? 0)
  | JStr s => negb (String.eqb s "")
  | JError _ => true
  end.

(** Truthiness of a string, as in [if (regressionMessage)]. *)
Definition str_truthy (s : string) : bool := negb (String.eqb s "").

(** [Array.prototype.indexOf] on an array of strings: the first index whose
    element is strictly equal to [x], or [-1]. *)
Fixpoint indexOf_from (i : Z) (l : list string) (x : string) : Z :=
  match l with
  | [] => -1
  | y :: l' => if String.eqb y x then i else indexOf_from (i + 1) l' x
  end.

Definition indexOf (l : list string) (x : string) : Z := indexOf_from 0 l x.

(** The line feed character and the one-character string ["\n"]. *)
Definition LF_char : ascii := ascii_of_nat 10.

Definition LF : string := String LF_char EmptyString.

(** [s.split('\n')]: the pieces between line feeds; never empty. *)
Fixpoint split_lines_aux (cur : string) (s : string) : list string :=
  match s with
  | EmptyString => [cur]
  | String c s' =>
      if Ascii.eqb c LF_char
      then cur :: split_lines_aux "" s'
      else split_lines_aux (cur ++ String c EmptyString) s'
  end.

Definition split_lines (s : string) : list string := split_lines_aux "" s.

(** ** The jUnit list reporter ([src/Reporter/jUnitList.ts]) *)

Module JUnitList.

(** The npm packages the reporter calls. [chalk style text] stands for
    [chalk.style(text)], with dotted styles such as ["bgRed.white"];
    [variableDiff a e] is the [text] field of the diff. *)
Record Deps : Type := {
  chalk : string -> string -> string;
  ms : Z -> string;
  rightPad : string -> Z -> string;
  variableDiff : JsVal -> JsVal -> string;
  toXml : Z -> list (Z * Z * Z * list (string * Z)) -> string
}.

(** The wall clock as [new Date()] shows it, in local time. *)
Record Date : Type := {
  year : Z; month : Z; date : Z;
  hours : Z; minutes : Z; seconds : Z; milliseconds : Z
}.

(** [Date.prototype.getDate]: the day of the month. *)
Definition getDate (d : Date) : Z := date d.

(** Milliseconds since the start of the day of [d]. *)
Definition msOfDay (d : Date) : Z :=
  ((hours d * 60 + minutes d) * 60 + seconds d) * 1000 + milliseconds d.

Definition sameCalendarDay (d1 d2 : Date) : Prop :=
  year d1 = year d2 /\ month d1 = month d2 /\ date d1 = date d2.

Record FinalStats : Type := {
  total : Z; passed : Z; failed : Z; skipped : Z; regression : Z; todo : Z
}.

(** A test case [{classname: '', name, time}]. *)
Record TestCase : Type := { tc_name : string; tc_time : Z }.

(** A test suite [{failures, name: '', package: '', test, time, testcase}]. *)
Record TestSuite : Type := {
  ts_failures : Z; ts_test : Z; ts_time : Z; ts_testcase : list TestCase
}.

(** The fields of a [Min] instance, the four module-level counters, and
    the two output channels: the lines given to [console.log] and the
    chunks appended to [result.xml]. *)
Record Min : Type := {
  activeGroup : option string;
  start : option Z;
  testSuite : list TestCase;
  testSuites : list TestSuite;
  finalStats : FinalStats;
  count : Z;
  failCount : Z;
  testSuitesDuration : Z;
  testSuiteDuration : Z;
  console : list string;
  result_xml : list string
}.

Definition testsStatuses : list string := ["passed"; "failed"; "skipped"; "todo"].

Definition colors (status : string) : option string :=
  if String.eqb status "passed" then Some "green"
  else if String.eqb status "failed" then Some "red"
  else if String.eqb status "skipped" then Some "yellow"
  else if String.eqb status "todo" then Some "cyan"
  else None.

Definition icons (status : string) : string :=
  if String.eqb status "passed" then "✓"
  else if String.eqb status "failed" then "✖"
  else if String.eqb status "skipped" then "."
  else if String.eqb status "todo" then "!"
  else "undefined".

(** The state of a freshly constructed reporter. *)
Definition init : Min := {|
  activeGroup := None; start := None; testSuite := []; testSuites := [];
  finalStats := {| total := 0; passed := 0; failed := 0; skipped := 0;
                   regression := 0; todo := 0 |};
  count := 0; failCount := 0; testSuitesDuration := 0; testSuiteDuration := 0;
  console := []; result_xml := []
|}.

Definition set_console (c : list string) (r : Min) : Min :=
  {| activeGroup := activeGroup r; start := start r; testSuite := testSuite r;
     testSuites := testSuites r; finalStats := finalStats r; count := count r;
     failCount := failCount r; testSuitesDuration := testSuitesDuration r;
     testSuiteDuration := testSuiteDuration r; console := c;
     result_xml := result_xml r |}.

(** [console.log(text)] *)
Definition console_log (text : string) (r : Min) : Min :=
  set_console (console r ++ [text]) r.

(** [log (line)]: the line with two spaces in front. *)
Definition log (line : string) (r : Min) : Min := console_log ("  " ++ line) r.

(** [blankLine ()] *)
Definition blankLine (r : Min) : Min := console_log "" r.

(** The part of the reporter that printing leaves alone. *)
Definition quiet (r : Min) : option Z * FinalStats := (start r, finalStats r).

Section WithDeps.
Variable deps : Deps.

(** [_getStatusColor]: [chalk[this.colors[status]] || chalk.gray]. *)
Definition _getStatusColor (status : string) : string -> string :=
  match colors status with
  | Some c => chalk deps c
  | None => chalk deps "gray"
  end.

(** [_getStatusIcon]: [chalk[this.colors[status]](this.icons[status])];
    only called on one of the four statuses. *)
Definition _getStatusIcon (status : string) : string :=
  _getStatusColor status (icons status).

(** [this.finalStats[status]++] for one of the four statuses. *)
Definition bumpStatus (status : string) (f : FinalStats) : FinalStats :=
  if String.eqb status "passed" then
    {| total := total f; passed := passed f + 1; failed := failed f;
       skipped := skipped f; regression := regression f; todo := todo f |}
  else if String.eqb status "failed" then
    {| total := total f; passed := passed f; failed := failed f + 1;
       skipped := skipped f; regression := regression f; todo := todo f |}
  else if String.eqb status "skipped" then
    {| total := total f; passed := passed f; failed := failed f;
       skipped := skipped f + 1; regression := regression f; todo := todo f |}
  else if String.eqb status "todo" then
    {| total := total f; passed := passed f; failed := failed f;
       skipped := skipped f; regression := regression f; todo := todo f + 1 |}
  else f.

Definition bumpTotal (f : FinalStats) : FinalStats :=
  {| total := total f + 1; passed := passed f; failed := failed f;
     skipped := skipped f; regression := regression f; todo := todo f |}.

Definition bumpRegression (f : FinalStats) : FinalStats :=
  {| total := total f; passed := passed f; failed := failed f;
     skipped := skipped f; regression := regression f + 1; todo := todo f |}.

(** The payload of a [test:end] event. [te_error] is [None] when the
    field is [null] or [undefined]. *)
Record TestEnd : Type := {
  te_error : option JsVal;
  te_status : string;
  te_title : string;
  te_duration : Z;
  te_regression : bool;
  te_regressionMessage : string
}.

(** [onTestEnd] *)
Definition onTestEnd (e : TestEnd) (r : Min) : Min :=
  if indexOf testsStatuses (te_status e) <=? -1 then r
  else
    let stats := bumpTotal (bumpStatus (te_status e) (finalStats r)) in
    let stats := if te_regression e then bumpRegression stats else stats in
    let color := if String.eqb (te_status e) "passed"
                 then chalk deps "gray" else _getStatusColor (te_status e) in
    let pad := match activeGroup r with
               | Some t => if str_truthy t then "  " else ""
               | None => ""
               end in
    let r1 := log (pad ++ _getStatusIcon (te_status e) ++ " "
                   ++ color (te_title e) ++ " "
                   ++ chalk deps "gray" ("(" ++ ms deps (te_duration e) ++ ")")) r in
    let r2 := if str_truthy (te_regressionMessage e)
              then log (pad ++ pad
                        ++ chalk deps "magenta" ("MESSAGE: " ++ te_regressionMessage e)
                        ++ " " ++ LF) r1
              else r1 in
    let fc := match te_error e with
              | Some _ => failCount r2 + 1
              | None => failCount r2
              end in
    let testCase := {| tc_name := te_title e; tc_time := te_duration e |} in
    {| activeGroup := activeGroup r2; start := start r2;
       testSuite := testSuite r2 ++ [testCase];
       testSuites := testSuites r2; finalStats := stats;
       count := count r2 + 1; failCount := fc;
       testSuitesDuration := testSuitesDuration r2;
       testSuiteDuration := testSuiteDuration r2 + te_duration e;
       console := console r2; result_xml := result_xml r2 |}.

(** [onGroupStart] *)
Definition onGroupStart (title : string) (r : Min) : Min :=
  let r1 := log (chalk deps "white" title) (blankLine r) in
  {| activeGroup := Some title; start := start r1; testSuite := [];
     testSuites := testSuites r1; finalStats := finalStats r1;
     count := count r1; failCount := failCount r1;
     testSuitesDuration := testSuitesDuration r1;
     testSuiteDuration := testSuiteDuration r1;
     console := console r1; result_xml := result_xml r1 |}.

(** [onGroupEnd] *)
Definition onGroupEnd (r : Min) : Min :=
  let suite := {| ts_failures := failCount r; ts_test := count r;
                  ts_time := testSuiteDuration r; ts_testcase := testSuite r |} in
  {| activeGroup := None; start := start r; testSuite := testSuite r;
     testSuites := testSuites r ++ [suite]; finalStats := finalStats r;
     count := 0; failCount := 0;
     testSuitesDuration := testSuitesDuration r + testSuiteDuration r;
     testSuiteDuration := 0;
     console := console r; result_xml := result_xml r |}.

(** [onTestsStart]: [this.start = new Date().getDate()]. *)
Definition onTestsStart (now : Date) (r : Min) : Min :=
  {| activeGroup := activeGroup r; start := Some (getDate now);
     testSuite := testSuite r; testSuites := testSuites r;
     finalStats := finalStats r; count := count r; failCount := failCount r;
     testSuitesDuration := testSuitesDuration r;
     testSuiteDuration := testSuiteDuration r;
     console := console r; result_xml := result_xml r |}.

(** An error as [printError] reads it: [message] and [stack] (empty
    when absent), [actual] and [expected] ([None] when [undefined]) and
    the text the value itself prints as. *)
Record ErrorVal : Type := {
  e_message : string; e_stack : string;
  e_actual : option JsVal; e_expected : option JsVal;
  e_text : string
}.

Record Failure : Type := { f_error : ErrorVal; f_title : string }.

(** The [error] field of the [end] event: falsy, an array of failures,
    or a single failure. *)
Inductive Errors : Type :=
| NoErrors
| ErrorList (l : list Failure)
| ErrorOne (f : Failure).

(** [_hasDiff] *)
Definition _hasDiff (error : ErrorVal) : bool :=
  match e_actual error, e_expected error with
  | None, None => false
  | _, _ => true
  end.

Definition orUndefined (o : option JsVal) : JsVal :=
  match o with Some v => v | None => JUndefined end.

(** [printError] *)
Definition printError (f : Failure) (index : Z) (r : Min) : Min :=
  let error := f_error f in
  let hasDiff := _hasDiff error in
  let stack :=
    if hasDiff then e_message error
    else if str_truthy (e_stack error) then e_stack error
    else if str_truthy (e_message error) then e_message error
    else e_text error in
  let r1 := log (chalk deps "red" (pretty (index + 1) ++ ".") ++ " "
                 ++ chalk deps "red" (f_title f)) r in
  let r2 := log (chalk deps "red" stack) r1 in
  let r3 :=
    if hasDiff
    then fold_left (fun acc line => log line acc)
           (split_lines (variableDiff deps (orUndefined (e_actual error))
                                           (orUndefined (e_expected error))))
           r2
    else r2 in
  blankLine r3.

Fixpoint printErrors (l : list Failure) (index : Z) (r : Min) : Min :=
  match l with
  | [] => r
  | f :: l' => printErrors l' (index + 1) (printError f index r)
  end.

(** [printStack] *)
Definition printStack (errors : Errors) (r : Min) : Min :=
  match errors with
  | NoErrors => r
  | ErrorList l =>
      printErrors l 0 (blankLine (log (chalk deps "bgRed" " ERRORS ") (blankLine r)))
  | ErrorOne f =>
      printError f 5 (blankLine (log (chalk deps "bgRed" " ERRORS ") (blankLine r)))
  end.

Definition statsKeys (f : FinalStats) : list (string * Z) :=
  [("total", total f); ("passed", passed f); ("failed", failed f);
   ("skipped", skipped f); ("regression", regression f); ("todo", todo f)].

(** The last line of the report: the total time. *)
Definition timeLine (end_ : Z) : string :=
  chalk deps "gray" ("  " ++ rightPad deps "time" 11 ++ " : " ++ ms deps end_).

Definition xmlOf (r : Min) : string :=
  toXml deps (testSuitesDuration r)
    (map (fun s => (ts_failures s, ts_test s, ts_time s,
                    map (fun c => (tc_name c, tc_time c)) (ts_testcase s)))
         (testSuites r)).

(** The lines of the report for the counters above zero, in the order of
    the keys of [finalStats]. *)
Definition statsLines (f : FinalStats) : string :=
  fold_left
    (fun acc kv =>
       if 0 <? snd kv
       then acc ++ chalk deps "gray"
              ("  " ++ rightPad deps (fst kv) 11 ++ " : " ++ pretty (snd kv) ++ LF)
       else acc)
    (statsKeys f) "".

(** [generateReport]: the report text, and the reporter after the XML
    has been appended to [result.xml]. *)
Definition generateReport (end_ : Z) (r : Min) : string * Min :=
  let report := statsLines (finalStats r) ++ timeLine end_ in
  (report,
   {| activeGroup := activeGroup r; start := start r; testSuite := testSuite r;
      testSuites := testSuites r; finalStats := finalStats r; count := count r;
      failCount := failCount r; testSuitesDuration := testSuitesDuration r;
      testSuiteDuration := testSuiteDuration r; console := console r;
      result_xml := result_xml r ++ [xmlOf r] |}).

(** [x - this.start], where [null] counts as [0]. *)
Definition minusStart (x : Z) (s : option Z) : Z :=
  match s with Some d => x - d | None => x end.

(** The value of [end] in [onTestsEnd]. *)
Definition endOf (now : Date) (r : Min) : Z := minusStart (getDate now) (start r).

(** [onTestsEnd] *)
Definition onTestsEnd (now : Date) (status : string) (error : Errors) (r : Min) : Min :=
  let end_ := endOf now r in
  let r1 := blankLine r in
  if total (finalStats r1) =? 0
  then log (chalk deps "bgMagenta.white" " 0 TESTS RAN ") r1
  else
    let r2 := printStack error r1 in
    let r3 := if String.eqb status "passed"
              then log (chalk deps "bgGreen.white" " PASSED ") r2
              else log (chalk deps "bgRed.white" " FAILED ") r2 in
    let r4 := blankLine r3 in
    let '(report, r5) := generateReport end_ r4 in
    console_log report r5.

(** The events the constructor subscribes to, with the clock reading
    taken while the handler runs. *)
Inductive Event : Type :=
| EvTestEnd (e : TestEnd)
| EvGroupStart (title : string)
| EvGroupEnd
| EvEnd (status : string) (error : Errors)
| EvStart.

Definition handle (now : Date) (ev : Event) (r : Min) : Min :=
  match ev with
  | EvTestEnd e => onTestEnd e r
  | EvGroupStart t => onGroupStart t r
  | EvGroupEnd => onGroupEnd r
  | EvEnd s e => onTestsEnd now s e r
  | EvStart => onTestsStart now r
  end.

(** A run of the emitter: each event with the time it is delivered at. *)
Fixpoint handleAll (evs : list (Date * Event)) (r : Min) : Min :=
  match evs with
  | [] => r
  | (now, ev) :: evs' => handleAll evs' (handle now ev r)
  end.

Definition isStart (ev : Event) : bool :=
  match ev with EvStart => true | _ => false end.

End WithDeps.

End JUnitList.

(** ** The slim runner ([@module SlimRunner], [index.ts]) *)

Module SlimRunner.

(** User functions (test callbacks, hooks, reporters, loader filters) are
    opaque: a handle, whose behaviour the environment gives. *)
Definition FnId : Type := nat.

(** The default reporter, [listReporter]. *)
Definition listReporter : FnId := 0%nat.

(** A [RegExp] object. *)
Record RegExp : Type := { source : string; flags : string }.

(** [IOptions]: the options of the runner. [grep] is [None] when the
    property is absent. *)
Record IOptions : Type := { bail : bool; timeout : Z; grep : option RegExp }.

(** The [Partial<ITestOptions>] the declaration functions pass to
    [addTest]: nothing, [{skip: true}], [{skipInCI: true}],
    [{runInCI: true}] or [{regression: true}]. *)
Inductive TestOptions : Type :=
| NoOptions | Skip | SkipInCI | RunInCI | Regression.

Record Test : Type := {
  t_title : string;
  t_callback : FnId;
  t_options : TestOptions
}.

Inductive HookKind : Type := Before | After | BeforeEach | AfterEach.

Record Hooks : Type := {
  h_before : option FnId;
  h_after : option FnId;
  h_beforeEach : option FnId;
  h_afterEach : option FnId
}.

(** A [Group] object. The class is not part of [index.ts]; its fields are
    those the specification lists: a title, an ordered sequence of tests,
    four hook slots and a configuration. *)
Record Group : Type := {
  g_title : string;
  g_options : IOptions;
  g_tests : list Test;
  g_hooks : Hooks
}.

Definition noHooks : Hooks :=
  {| h_before := None; h_after := None; h_beforeEach := None; h_afterEach := None |}.

(** Modelled from the spec: the constructor of [Group], which is not part
    of [index.ts]. "configuration snapshot (bail, timeout, grep) -- copied
    at creation time from the global configuration, not live-linked": the
    new group stores the value the options have when it is created; it has
    no test and its own, empty, hook slots. *)
Definition Group_new (title : string) (options : IOptions) : Group :=
  {| g_title := title; g_options := options; g_tests := []; g_hooks := noHooks |}.

(** Modelled from the spec: the method [test] of [Group], which is not
    part of [index.ts]. "ordered sequence of Tests (insertion order =
    execution order)": the new test is put after the tests the group has. *)
Definition Group_test (title : string) (callback : FnId) (options : TestOptions)
    (g : Group) : Group :=
  {| g_title := g_title g; g_options := g_options g;
     g_tests := g_tests g ++ [{| t_title := title; t_callback := callback;
                                 t_options := options |}];
     g_hooks := g_hooks g |}.

(** Modelled from the spec: the hook setters of [Group] ([before],
    [after], [beforeEach], [afterEach]), which are not part of [index.ts].
    "four hook slots (before-all, after-all, before-each, after-each)", "at
    most one hook of each kind per Group": a setter fills the slot of its
    kind. *)
Definition Group_hook (kind : HookKind) (fn : FnId) (g : Group) : Group :=
  let h := g_hooks g in
  {| g_title := g_title g; g_options := g_options g; g_tests := g_tests g;
     g_hooks :=
       match kind with
       | Before => {| h_before := Some fn; h_after := h_after h;
                      h_beforeEach := h_beforeEach h; h_afterEach := h_afterEach h |}
       | After => {| h_before := h_before h; h_after := Some fn;
                     h_beforeEach := h_beforeEach h; h_afterEach := h_afterEach h |}
       | BeforeEach => {| h_before := h_before h; h_after := h_after h;
                          h_beforeEach := Some fn; h_afterEach := h_afterEach h |}
       | AfterEach => {| h_before := h_before h; h_after := h_after h;
                         h_beforeEach := h_beforeEach h; h_afterEach := Some fn |}
       end |}.

(** The [Loader] object. The class is not part of [index.ts]; it is taken
    as the store of the glob and the filter it was last given, and what
    [loadFiles] finds is a field of the environment. *)
Record Loader : Type := {
  l_files : option (list string);
  l_filter : option FnId
}.

(** The [Runner] object of a call of [run]: the reporter it was given and
    its failure flag [hasErrors]. *)
Record Runner : Type := {
  rn_reporter : option FnId;
  rn_hasErrors : bool
}.

(** Modelled from the spec: the constructor of [Runner], which is not part
    of [index.ts]. "cumulative failure flag", "hasErrors becomes true the
    instant any non-regression Test fails, any hook fails, or any Test
    exceeds its timeout": a new runner has recorded no failure. *)
Definition Runner_new : Runner := {| rn_reporter := None; rn_hasErrors := false |}.

(** The state of the module. [Group] objects live in [heap], at the index
    they were allocated at; [groups] and [activeGroup] hold addresses, so
    that the active group is the very object that is in the list.
    [runner] is the local variable of [run], kept here because the hooks
    receive it. [regexpLog] records the sources given to [new RegExp]. *)
Record State : Type := {
  heap : list Group;
  groups : list nat;
  activeGroup : option nat;
  runnerOptions : IOptions;
  reporterFn : FnId;
  beforeHooks : list FnId;
  afterHooks : list FnId;
  loader : Loader;
  runner : Runner;
  regexpLog : list string
}.

(** The module as it is when loaded. *)
Definition init : State := {|
  heap := []; groups := []; activeGroup := None;
  runnerOptions := {| bail := false; timeout := 2000; grep := None |};
  reporterFn := listReporter;
  beforeHooks := []; afterHooks := [];
  loader := {| l_files := None; l_filter := None |};
  runner := Runner_new;
  regexpLog := []
|}.

Definition set_heap (h : list Group) (s : State) : State :=
  {| heap := h; groups := groups s; activeGroup := activeGroup s;
     runnerOptions := runnerOptions s; reporterFn := reporterFn s;
     beforeHooks := beforeHooks s; afterHooks := afterHooks s;
     loader := loader s; runner := runner s; regexpLog := regexpLog s |}.

Definition set_groups (g : list nat) (s : State) : State :=
  {| heap := heap s; groups := g; activeGroup := activeGroup s;
     runnerOptions := runnerOptions s; reporterFn := reporterFn s;
     beforeHooks := beforeHooks s; afterHooks := afterHooks s;
     loader := loader s; runner := runner s; regexpLog := regexpLog s |}.

Definition set_activeGroup (a : option nat) (s : State) : State :=
  {| heap := heap s; groups := groups s; activeGroup := a;
     runnerOptions := runnerOptions s; reporterFn := reporterFn s;
     beforeHooks := beforeHooks s; afterHooks := afterHooks s;
     loader := loader s; runner := runner s; regexpLog := regexpLog s |}.

Definition set_runnerOptions (o : IOptions) (s : State) : State :=
  {| heap := heap s; groups := groups s; activeGroup := activeGroup s;
     runnerOptions := o; reporterFn := reporterFn s;
     beforeHooks := beforeHooks s; afterHooks := afterHooks s;
     loader := loader s; runner := runner s; regexpLog := regexpLog s |}.

Definition set_reporterFn (f : FnId) (s : State) : State :=
  {| heap := heap s; groups := groups s; activeGroup := activeGroup s;
     runnerOptions := runnerOptions s; reporterFn := f;
     beforeHooks := beforeHooks s; afterHooks := afterHooks s;
     loader := loader s; runner := runner s; regexpLog := regexpLog s |}.

Definition set_beforeHooks (l : list FnId) (s : State) : State :=
  {| heap := heap s; groups := groups s; activeGroup := activeGroup s;
     runnerOptions := runnerOptions s; reporterFn := reporterFn s;
     beforeHooks := l; afterHooks := afterHooks s;
     loader := loader s; runner := runner s; regexpLog := regexpLog s |}.

Definition set_afterHooks (l : list FnId) (s : State) : State :=
  {| heap := heap s; groups := groups s; activeGroup := activeGroup s;
     runnerOptions := runnerOptions s; reporterFn := reporterFn s;
     beforeHooks := beforeHooks s; afterHooks := l;
     loader := loader s; runner := runner s; regexpLog := regexpLog s |}.

Definition set_loader (l : Loader) (s : State) : State :=
  {| heap := heap s; groups := groups s; activeGroup := activeGroup s;
     runnerOptions := runnerOptions s; reporterFn := reporterFn s;
     beforeHooks := beforeHooks s; afterHooks := afterHooks s;
     loader := l; runner := runner s; regexpLog := regexpLog s |}.

Definition set_runner (r : Runner) (s : State) : State :=
  {| heap := heap s; groups := groups s; activeGroup := activeGroup s;
     runnerOptions := runnerOptions s; reporterFn := reporterFn s;
     beforeHooks := beforeHooks s; afterHooks := afterHooks s;
     loader := loader s; runner := r; regexpLog := regexpLog s |}.

Definition set_regexpLog (l : list string) (s : State) : State :=
  {| heap := heap s; groups := groups s; activeGroup := activeGroup s;
     runnerOptions := runnerOptions s; reporterFn := reporterFn s;
     beforeHooks := beforeHooks s; afterHooks := afterHooks s;
     loader := loader s; runner := runner s; regexpLog := l |}.

(** How a call ends: it returns, it throws (an [async] function rejects),
    or the process is gone by [process.exit]. The state is the one the
    call leaves behind: nothing is rolled back by a throw. *)
Inductive Res : Type :=
| Ok (st : State)
| Throw (v : JsVal) (st : State)
| Exit (code : Z) (st : State).

Definition state_of (r : Res) : State :=
  match r with Ok st | Throw _ st | Exit _ st => st end.

(** Sequencing: the rest runs only after a normal return. *)
Definition bind (r : Res) (k : State -> Res) : Res :=
  match r with
  | Ok st => k st
  | Throw v st => Throw v st
  | Exit c st => Exit c st
  end.

(** What lies outside the file: the regular-expression engine
    ([regexp_syntax_ok s] tells whether [new RegExp(s)] returns, and
    [regexp_test] is [RegExp.prototype.test]), the loader's search, the
    suite files, the hooks and [Runner.prototype.run]. *)
Record Env : Type := {
  regexp_syntax_ok : string -> bool;
  regexp_test : RegExp -> string -> bool;
  loadFiles : Loader -> JsVal + list string;
  requireFile : string -> State -> Res;
  callHook : FnId -> State -> Res;
  runnerRun : State -> Res
}.

(** [new RegExp(s)] for a source the engine accepts. *)
Definition RegExp_new (s : string) : RegExp := {| source := s; flags := "" |}.

(** *** The declaration API *)

(** [new Group(title, testArgsFn, hookArgsFn, runnerOptions)] followed by
    [groups.push(activeGroup)]: the new object is allocated, made active
    and put last in the list. *)
Definition pushGroup (title : string) (st : State) : State :=
  let a := length (heap st) in
  set_groups (groups st ++ [a])
    (set_activeGroup (Some a)
       (set_heap (heap st ++ [Group_new title (runnerOptions st)]) st)).

(** [addTest]. The test object it returns is not kept. *)
Definition addTest (title : string) (callback : FnId) (options : TestOptions)
    (st : State) : Res :=
  let st1 := match activeGroup st with
             | None => pushGroup "root" st
             | Some _ => st
             end in
  match activeGroup st1 with
  | Some a => Ok (set_heap (alter (Group_test title callback options) a (heap st1)) st1)
  | None => Throw (JError "Cannot read property 'test' of null") st1
  end.

(** [test] *)
Definition test (title : string) (callback : FnId) : State -> Res :=
  addTest title callback NoOptions.

(** [test.skip], [test.skipInCI], [test.runInCI], [test.failing] *)
Definition skip (title : string) (callback : FnId) : State -> Res :=
  addTest title callback Skip.

Definition skipInCI (title : string) (callback : FnId) : State -> Res :=
  addTest title callback SkipInCI.

Definition runInCI (title : string) (callback : FnId) : State -> Res :=
  addTest title callback RunInCI.

Definition failing (title : string) (callback : FnId) : State -> Res :=
  addTest title callback Regression.

(** [test.group]. The callback receives the address of the new group. *)
Definition group (title : string) (callback : nat -> State -> Res) (st : State) : Res :=
  let a := length (heap st) in
  bind (callback a (pushGroup title st))
       (fun st2 => Ok (set_activeGroup None st2)).

(** The [grep] option of [configure]: a raw string or a [RegExp]. *)
Inductive Grep : Type :=
| GrepSource (s : string)
| GrepRegExp (r : RegExp).

(** [Partial<IConfigureOptions>]: [None] is an absent property. *)
Record ConfigureOptions : Type := {
  o_reporterFn : option FnId;
  o_bail : option bool;
  o_timeout : option Z;
  o_files : option (list string);
  o_filter : option FnId;
  o_before : option (list FnId);
  o_after : option (list FnId);
  o_grep : option Grep
}.

Definition noOptions : ConfigureOptions :=
  {| o_reporterFn := None; o_bail := None; o_timeout := None; o_files := None;
     o_filter := None; o_before := None; o_after := None; o_grep := None |}.

Definition configureError : JsVal :=
  JError "test.configure must be called before creating any tests".

Definition regexpSyntaxError (s : string) : JsVal :=
  JError ("Invalid regular expression: /" ++ s ++ "/").

Definition opt_apply {A} (o : option A) (f : A -> State -> State) (st : State) : State :=
  match o with Some x => f x st | None => st end.

(** The last statement of [configure]:
    [if (options.grep) runnerOptions.grep = ... ]. *)
Definition configureGrep (env : Env) (g : option Grep) (st : State) : Res :=
  let o := runnerOptions st in
  match g with
  | None => Ok st
  | Some (GrepRegExp r) =>
      Ok (set_runnerOptions {| bail := bail o; timeout := timeout o; grep := Some r |} st)
  | Some (GrepSource s) =>
      if str_truthy s then
        let st1 := set_regexpLog (regexpLog st ++ [s]) st in
        if regexp_syntax_ok env s
        then Ok (set_runnerOptions
                   {| bail := bail o; timeout := timeout o; grep := Some (RegExp_new s) |} st1)
        else Throw (regexpSyntaxError s) st1
      else Ok st
  end.

(** The statements of [configure] between the guard and [grep]: each
    option that is given is stored. The arrays of hooks are arrays by
    their type, so the two [ow] checks pass. *)
Definition configureFields (options : ConfigureOptions) (st : State) : State :=
  let st := opt_apply (o_reporterFn options) set_reporterFn st in
  let st := opt_apply (o_bail options)
              (fun b s => set_runnerOptions
                 {| bail := b; timeout := timeout (runnerOptions s);
                    grep := grep (runnerOptions s) |} s) st in
  let st := opt_apply (o_timeout options)
              (fun t s => set_runnerOptions
                 {| bail := bail (runnerOptions s); timeout := t;
                    grep := grep (runnerOptions s) |} s) st in
  let st := opt_apply (o_files options)
              (fun f s => set_loader
                 {| l_files := Some f; l_filter := l_filter (loader s) |} s) st in
  let st := opt_apply (o_filter options)
              (fun f s => set_loader
                 {| l_files := l_files (loader s); l_filter := Some f |} s) st in
  let st := opt_apply (o_before options) set_beforeHooks st in
  opt_apply (o_after options) set_afterHooks st.

(** [test.configure] *)
Definition configure (env : Env) (options : ConfigureOptions) (st : State) : Res :=
  if negb (length (groups st) =? 0)%nat then Throw configureError st
  else configureGrep env (o_grep options) (configureFields options st).

(** Whether [new RegExp] returns on the [grep] option, when it is called. *)
Definition grepCompiles (env : Env) (g : option Grep) : bool :=
  match g with
  | Some (GrepSource s) => negb (str_truthy s) || regexp_syntax_ok env s
  | _ => true
  end.

(** Whether [configure] assigns [runnerOptions.grep] for these options. *)
Definition setsGrep (options : ConfigureOptions) : bool :=
  match o_grep options with
  | Some (GrepSource s) => str_truthy s
  | Some (GrepRegExp _) => true
  | None => false
  end.

(** Modelled from the spec: the use of [grep] by the code that runs the
    tests, which is not part of [index.ts]. "grep (pattern or raw string,
    normalized to a compiled pattern, default: match everything)": without
    a pattern every title passes the filter, with one the titles it
    matches. *)
Definition grepMatches (env : Env) (o : IOptions) (title : string) : bool :=
  match grep o with
  | None => true
  | Some r => regexp_test env r title
  end.

(** *** Declaration scripts

    What a suite file, or the callback of [test.group], does with the API:
    a sequence of calls. [SHook] is a call of a hook setter on the group
    the enclosing callback received; [SReset] stands for a call
    [run(false)] that runs to its end, of which only the last two
    assignments ([groups = []; activeGroup = null]) are kept; [SThrow]
    throws. *)
Inductive Script : Type :=
| SEnd
| STest (options : TestOptions) (title : string) (callback : FnId) (rest : Script)
| SGroup (title : string) (body : Script) (rest : Script)
| SHook (kind : HookKind) (fn : FnId) (rest : Script)
| SConfigure (options : ConfigureOptions) (rest : Script)
| SReset (rest : Script)
| SThrow (v : JsVal).

(** The end of [run] when [exitProcess] is false. *)
Definition reset (st : State) : State := set_activeGroup None (set_groups [] st).

(** [self] is the group the enclosing callback received, if any. *)
Fixpoint exec (env : Env) (s : Script) (self : option nat) (st : State) : Res :=
  match s with
  | SEnd => Ok st
  | STest o title cb rest =>
      bind (addTest title cb o st) (exec env rest self)
  | SGroup title body rest =>
      bind (group title (fun a => exec env body (Some a)) st) (exec env rest self)
  | SHook kind fn rest =>
      match self with
      | Some a => exec env rest self (set_heap (alter (Group_hook kind fn) a (heap st)) st)
      | None => Throw (JError "group is not defined") st
      end
  | SConfigure o rest =>
      bind (configure env o st) (exec env rest self)
  | SReset rest => exec env rest self (reset st)
  | SThrow v => Throw v st
  end.

(** What a callback declares on its own group: a test or a hook. *)
Inductive GroupDecl : Type :=
| GTest (options : TestOptions) (title : string) (callback : FnId)
| GHook (kind : HookKind) (fn : FnId).

Definition applyDecl (g : Group) (d : GroupDecl) : Group :=
  match d with
  | GTest o title cb => Group_test title cb o g
  | GHook kind fn => Group_hook kind fn g
  end.

(** The callback that makes the declarations [ds], in order, and nothing
    else. *)
Fixpoint flat (ds : list GroupDecl) : Script :=
  match ds with
  | [] => SEnd
  | GTest o title cb :: ds' => STest o title cb (flat ds')
  | GHook kind fn :: ds' => SHook kind fn (flat ds')
  end.

(** The declarations of tests [ts] at top level, in order. *)
Fixpoint declare (ts : list Test) (rest : Script) : Script :=
  match ts with
  | [] => rest
  | t :: ts' => STest (t_options t) (t_title t) (t_callback t) (declare ts' rest)
  end.

(** A script in which no call of [configure] sets [grep]. *)
Fixpoint neverSetsGrep (s : Script) : bool :=
  match s with
  | SEnd | SThrow _ => true
  | STest _ _ _ rest | SHook _ _ rest | SReset rest => neverSetsGrep rest
  | SGroup _ body rest => neverSetsGrep body && neverSetsGrep rest
  | SConfigure o rest => negb (setsGrep o) && neverSetsGrep rest
  end.

(** The group [g] after the tests [ts] were declared in it, in order. *)
Definition addTests (ts : list Test) (g : Group) : Group :=
  fold_left (fun g t => Group_test (t_title t) (t_callback t) (t_options t) g) ts g.

(** Every group of [h] is still in [h'], at its address, with its title
    and its configuration. *)
Definition keeps (h h' : list Group) : Prop :=
  forall a g, h !! a = Some g ->
    exists g', h' !! a = Some g' /\ g_title g' = g_title g /\ g_options g' = g_options g.

(** The active group, if any, is in the list of groups. *)
Definition activeListed (st : State) : Prop :=
  match activeGroup st with
  | Some a => In a (groups st)
  | None => True
  end.

(** The titles of the groups in the runner's list, in order. *)
Definition groupTitles (st : State) : list string :=
  omap (fun a => g_title <$> heap st !! a) (groups st).

(** *** [run] *)

(** What [run] does that can be seen from outside, in order. *)
Inductive Event : Type :=
| EBeforeHook (fn : FnId)
| ELoadFiles
| ELog (line : string)
| ERequire (file : string)
| ERunnerRun
| EAfterHook (fn : FnId)
| EExit (code : Z).

Definition guardMessage : string :=
  "Calling configure inside test file is not allowed. Create a master file for same".

(** Sequencing with a trace. *)
Definition andThen (r : list Event * Res) (k : State -> list Event * Res)
    : list Event * Res :=
  match r with
  | (tr, Ok st) => let '(tr', r') := k st in ((tr ++ tr')%list, r')
  | other => other
  end.

(** [for (let hook of hooks) await hook(runner, emitter)] *)
Fixpoint runHooks (env : Env) (ev : FnId -> Event) (hooks : list FnId) (st : State)
    : list Event * Res :=
  match hooks with
  | [] => ([], Ok st)
  | h :: hooks' => andThen ([ev h], callHook env h st) (runHooks env ev hooks')
  end.

(** [loaderFiles.forEach((file) => require(file))] *)
Fixpoint requireAll (env : Env) (files : list string) (st : State) : list Event * Res :=
  match files with
  | [] => ([], Ok st)
  | f :: files' => andThen ([ERequire f], requireFile env f st) (requireAll env files')
  end.

(** Lines 123 to 132: the runner is made and given the reporter, then the
    before hooks run. *)
Definition beforePhase (env : Env) (st : State) : list Event * Res :=
  let st1 := set_runner {| rn_reporter := Some (reporterFn st);
                           rn_hasErrors := rn_hasErrors Runner_new |} st in
  runHooks env EBeforeHook (beforeHooks st1) st1.

(** Lines 134 to 143: the files are searched, the guard is checked, the
    files are loaded. *)
Definition loadPhase (env : Env) (st : State) : list Event * Res :=
  match loadFiles env (loader st) with
  | inl v => ([ELoadFiles], Throw v st)
  | inr loaderFiles =>
      if negb (length loaderFiles =? 0)%nat && negb (length (groups st) =? 0)%nat
      then ([ELoadFiles; ELog guardMessage; EExit 1], Exit 1 st)
      else andThen ([ELoadFiles], Ok st) (requireAll env loaderFiles)
  end.

(** Lines 144 to 150: [runner.run()] inside [try]. The result is the state
    and what was caught, if anything. *)
Definition tryRunner (env : Env) (st : State) : Res * option JsVal :=
  match runnerRun env st with
  | Ok st' => (Ok st', None)
  | Throw v st' => (Ok st', Some v)
  | Exit c st' => (Exit c st', None)
  end.

(** The value of the variable [hardException]: [null] at first, then what
    was caught. *)
Definition hardException (caught : option JsVal) : JsVal :=
  match caught with Some v => v | None => JNull end.

(** Lines 155 to 157: the after hooks. *)
Definition afterPhase (env : Env) (st : State) : list Event * Res :=
  runHooks env EAfterHook (afterHooks st) st.

(** Lines 159 to 164. *)
Definition exitPhase (exitProcess : bool) (caught : option JsVal) (st : State)
    : list Event * Res :=
  if exitProcess then
    if rn_hasErrors (runner st) || truthy (hardException caught)
    then ([EExit 1], Exit 1 st)
    else ([EExit 0], Exit 0 st)
  else ([], Ok (reset st)).

(** [run] *)
Definition run (env : Env) (exitProcess : bool) (st : State) : list Event * Res :=
  andThen (beforePhase env st) (fun st1 =>
  andThen (loadPhase env st1) (fun st2 =>
  let '(r, caught) := tryRunner env st2 in
  andThen ([ERunnerRun], r) (fun st3 =>
  andThen (afterPhase env st3) (fun st4 =>
  exitPhase exitProcess caught st4)))).

End SlimRunner.

(** ** Sample inputs *)

Module ReporterSamples.
Import JUnitList.

(** The packages as plain text: no colour, no padding, and the time as
    [ms] writes it below one second. *)
Definition plainDeps : Deps := {|
  chalk := fun _ text => text;
  ms := fun n => pretty n ++ "ms";
  rightPad := fun s _ => s;
  variableDiff := fun _ _ => "";
  toXml := fun _ _ => ""
|}.

Definition pendingEvent : TestEnd := {|
  te_error := None; te_status := "pending"; te_title := "adds two numbers";
  te_duration := 12; te_regression := false; te_regressionMessage := ""
|}.

Definition passedEvent : TestEnd := {|
  te_error := None; te_status := "passed"; te_title := "adds two numbers";
  te_duration := 12; te_regression := false; te_regressionMessage := ""
|}.

Definition morning : Date := {|
  year := 2019; month := 3; date := 14;
  hours := 9; minutes := 0; seconds := 0; milliseconds := 0
|}.

Definition evening : Date := {|
  year := 2019; month := 3; date := 14;
  hours := 21; minutes := 30; seconds := 0; milliseconds := 0
|}.

End ReporterSamples.

Module Samples.
Import SlimRunner.

(** An environment for the examples. The engine rejects the source ["("]
    (an unterminated group, a [SyntaxError] of [new RegExp]) and takes the
    other sources as literal text to find in the title; the loader finds
    [files]; the hook [badHook], if any, throws and the others return;
    [runner.run()] throws [runnerThrows], if any, and returns otherwise;
    the suite files declare nothing. *)
Definition sampleEnv (files : list string) (badHook : option FnId)
    (runnerThrows : option JsVal) : Env := {|
  regexp_syntax_ok := fun s => negb (String.eqb s "(");
  regexp_test := fun r title =>
    match String.index 0 (source r) title with Some _ => true | None => false end;
  loadFiles := fun _ => inr files;
  requireFile := fun _ st => Ok st;
  callHook := fun h st =>
    match badHook with
    | Some b => if Nat.eqb b h then Throw (JError "hook failed") st else Ok st
    | None => Ok st
    end;
  runnerRun := fun st =>
    match runnerThrows with Some v => Throw v st | None => Ok st end
|}.

(** Nothing fails, no file is found. *)
Definition calmEnv : Env := sampleEnv [] None None.

(** Nothing fails, the loader finds one suite file. *)
Definition loadingEnv : Env := sampleEnv ["test/math.spec.js"] None None.

(** [runner.run()] throws an [Error]; the hooks return. *)
Definition crashingEnv : Env := sampleEnv [] None (Some (JError "boom")).

(** [runner.run()] throws an [Error], and so does the hook [1]. *)
Definition crashingHookEnv : Env := sampleEnv [] (Some 1%nat) (Some (JError "boom")).

(** [{grep: g}] *)
Definition grepOnly (g : Grep) : ConfigureOptions :=
  {| o_reporterFn := None; o_bail := None; o_timeout := None; o_files := None;
     o_filter := None; o_before := None; o_after := None; o_grep := Some g |}.

(** [{bail: true, timeout: 5000}] *)
Definition bailFast : ConfigureOptions :=
  {| o_reporterFn := None; o_bail := Some true; o_timeout := Some 5000;
     o_files := None; o_filter := None; o_before := None; o_after := None;
     o_grep := None |}.

(** [{after: [1, 2]}], two after hooks. *)
Definition twoAfterHooks : ConfigureOptions :=
  {| o_reporterFn := None; o_bail := None; o_timeout := None; o_files := None;
     o_filter := None; o_before := None; o_after := Some [1%nat; 2%nat];
     o_grep := None |}.

(** The module after [test('a', f1)]. *)
Definition oneTestDeclared : State := state_of (test "a" 1%nat init).

(** The module after [test.configure({after: [1, 2]})]. *)
Definition withAfterHooks : State := state_of (configure calmEnv twoAfterHooks init).

(** [test('a', f1); test.group('g', () => {}); test('b', f2)] *)
Definition testGroupTest : Script :=
  STest NoOptions "a" 1%nat (SGroup "g" SEnd (STest NoOptions "b" 2%nat SEnd)).

(** The callback [() => { test.group('inner', () => {}); test('t', f1) }] *)
Definition innerThenTest : Script :=
  SGroup "inner" SEnd (STest NoOptions "t" 1%nat SEnd).

(** The callback [(group) => { group.before(f7); test('t', f1); test.skip('u', f2) }] *)
Definition hookAndTests : list GroupDecl :=
  [GHook Before 7%nat; GTest NoOptions "t" 1%nat; GTest Skip "u" 2%nat].

(** [test.configure({grep: 'foo'}); test.configure({grep: ''})] *)
Definition grepThenEmpty : Script :=
  SConfigure (grepOnly (GrepSource "foo")) (SConfigure (grepOnly (GrepSource "")) SEnd).

(** [test.group('g', () => {})], then a finished [run(false)], then
    [test.configure({bail: true, timeout: 5000})]. *)
Definition groupRunConfigure : Script :=
  SGroup "g" SEnd (SReset (SConfigure bailFast SEnd)).

End Samples.

(** ** Measures on the reporter *)

Module ReporterMeasures.
Import JUnitList.

(** Whether [onTestEnd] goes past its first test on the event. *)
Definition counted (e : TestEnd) : bool :=
  negb (indexOf testsStatuses (te_status e) <=? -1).

(** The test case [onTestEnd] makes of an event. *)
Definition caseOf (e : TestEnd) : TestCase :=
  {| tc_name := te_title e; tc_time := te_duration e |}.

(** The counters of the final stats agree with each other. *)
Definition statsConsistent (f : FinalStats) : Prop :=
  total f = passed f + failed f + skipped f + todo f
  /\ 0 <= passed f /\ 0 <= failed f /\ 0 <= skipped f /\ 0 <= todo f
  /\ 0 <= regression f <= total f.

(** The sums of the [test] and [time] attributes of the suites. *)
Definition suiteTests (l : list TestSuite) : Z :=
  fold_right (fun s n => ts_test s + n) 0 l.

Definition suiteTimes (l : list TestSuite) : Z :=
  fold_right (fun s n => ts_time s + n) 0 l.

(** The sum of the durations of the events, and the number of those that
    carry an error. *)
Definition durations (es : list TestEnd) : Z :=
  fold_right (fun e n => te_duration e + n) 0 es.

Definition withError (es : list TestEnd) : Z :=
  fold_right (fun e n => match te_error e with Some _ => 1 + n | None => n end) 0 es.

(** Everything in the reporter but its two output channels. *)
Definition fields (r : Min) :=
  (activeGroup r, start r, testSuite r, testSuites r, finalStats r,
   count r, failCount r, testSuitesDuration r, testSuiteDuration r).

(** [test:end] events delivered one after another. *)
Definition testEnds (deps : Deps) (es : list TestEnd) (r : Min) : Min :=
  fold_left (fun r e => onTestEnd deps e r) es r.

(** The console and [result.xml] of [r'] are those of [r] with more at the
    end. *)
Definition grows (r r' : Min) : Prop :=
  (exists l, console r' = (console r ++ l)%list)
  /\ (exists x, result_xml r' = (result_xml r ++ x)%list).


(** A [test:end] event that is counted. *)
Definition isCountedTestEnd (ev : Event) : bool :=
  match ev with EvTestEnd e => counted e | _ => false end.

End ReporterMeasures.

Module ReporterRuns.
Import JUnitList ReporterSamples.

Definition failedEvent : TestEnd := {|
  te_error := Some (JError "expected 3 to equal 4"); te_status := "failed";
  te_title := "subtracts two numbers"; te_duration := 30;
  te_regression := false; te_regressionMessage := ""
|}.

(** A run with one group: two counted tests and one that is not. *)
Definition groupedRun : list (Date * Event) :=
  [(morning, EvStart); (morning, EvGroupStart "math");
   (morning, EvTestEnd passedEvent); (morning, EvTestEnd failedEvent);
   (morning, EvTestEnd pendingEvent); (evening, EvGroupEnd);
   (evening, EvEnd "failed" NoErrors)].


(** A run in which no test is counted. *)
Definition emptyRun : list (Date * Event) :=
  [(morning, EvStart); (morning, EvGroupStart "math");
   (morning, EvTestEnd pendingEvent); (evening, EvGroupEnd);
   (evening, EvEnd "passed" NoErrors)].

End ReporterRuns.

(** ** Measures on the slim runner *)

Module SlimRunnerMeasures.
Import SlimRunner.

(** No reference dangles: the addresses in [groups] and in [activeGroup]
    are addresses of allocated groups, and the active group is in the
    list. *)
Definition wellFormed (st : State) : Prop :=
  Forall (fun a => (a < length (heap st))%nat) (groups st)
  /\ match activeGroup st with
     | Some a => (a < length (heap st))%nat /\ In a (groups st)
     | None => True
     end.

(** The number of tests held by the groups of a heap. *)
Definition countTests (h : list Group) : nat :=
  fold_right (fun g n => (length (g_tests g) + n)%nat) 0%nat h.

Definition testCount (st : State) : nat := countTests (heap st).


(** The declarations [ds] on the group of the callback, then [rest]. *)
Fixpoint flatThen (ds : list GroupDecl) (rest : Script) : Script :=
  match ds with
  | [] => rest
  | GTest o title cb :: ds' => STest o title cb (flatThen ds' rest)
  | GHook kind fn :: ds' => SHook kind fn (flatThen ds' rest)
  end.

(** Calls of [test.group] one after another, each with a title and a
    callback that makes declarations on its group. *)
Fixpoint groupsScript (gs : list (string * list GroupDecl)) : Script :=
  match gs with
  | [] => SEnd
  | (title, ds) :: gs' => SGroup title (flat ds) (groupsScript gs')
  end.

(** The group such a call leaves in the heap. *)
Definition groupOf (o : IOptions) (g : string * list GroupDecl) : Group :=
  fold_left applyDecl (snd g) (Group_new (fst g) o).

(** The value an option leaves in a variable: its own when it is given,
    the one of the variable when it is absent. *)
Definition given {A : Type} (o : option A) (old : A) : A :=
  match o with Some x => x | None => old end.

Definition givenSome {A : Type} (o : option A) (old : option A) : option A :=
  match o with Some x => Some x | None => old end.

(** The events of a trace that [run] emits when it calls a hook of the
    array [hooks] one after another and stops at some point. *)
Definition hookPrefix (ev : FnId -> Event) (hooks : list FnId) (tr : list Event) : Prop :=
  exists called rest, hooks = (called ++ rest)%list /\ tr = map ev called.

Definition isExit (e : Event) : bool :=
  match e with EExit _ => true | _ => false end.

End SlimRunnerMeasures.

Module RunnerScripts.
Import SlimRunner Samples SlimRunnerMeasures.

(** [test.group('a', g => { g.before(f7); test('t', f1) });
     test('x', f3);
     test.group('b', () => { test.failing('u', f2) })] *)
Definition twoGroupsAndRoot : Script :=
  SGroup "a" (SHook Before 7%nat (STest NoOptions "t" 1%nat SEnd))
    (STest NoOptions "x" 3%nat
       (SGroup "b" (STest Regression "u" 2%nat SEnd) SEnd)).

(** Two groups with their declarations. *)
Definition twoGroups : list (string * list GroupDecl) :=
  [("a", hookAndTests); ("b", [GTest Regression "v" 3%nat])].

(** [{bail: true, timeout: 5000, grep: '('}] *)
Definition bailAndBadGrep : ConfigureOptions :=
  {| o_reporterFn := None; o_bail := Some true; o_timeout := Some 5000;
     o_files := None; o_filter := None; o_before := None; o_after := None;
     o_grep := Some (GrepSource "(") |}.

(** [{reporterFn: f9, bail: true, files: ['test/*.spec.js'], before: [4],
      grep: 'adds'}] *)
Definition manyOptions : ConfigureOptions :=
  {| o_reporterFn := Some 9%nat; o_bail := Some true; o_timeout := None;
     o_files := Some ["test/*.spec.js"]; o_filter := None;
     o_before := Some [4%nat]; o_after := None;
     o_grep := Some (GrepSource "adds") |}.

(** The module after [test.configure({before: [1, 2]})]. *)
Definition withBeforeHooks : State :=
  state_of (configure calmEnv
              {| o_reporterFn := None; o_bail := None; o_timeout := None;
                 o_files := None; o_filter := None; o_before := Some [1%nat; 2%nat];
                 o_after := None; o_grep := None |} init).

(** The loader finds two suite files; requiring the first one throws. *)
Definition brokenSuiteEnv : Env := {|
  regexp_syntax_ok := regexp_syntax_ok calmEnv;
  regexp_test := regexp_test calmEnv;
  loadFiles := fun _ => inr ["test/a.spec.js"; "test/b.spec.js"];
  requireFile := fun f st =>
    if String.eqb f "test/a.spec.js"
    then Throw (JError "Cannot find module") st else Ok st;
  callHook := fun _ st => Ok st;
  runnerRun := fun st => Ok st
|}.

(** The loader finds one suite file, which declares one test. *)
Definition suiteEnv : Env := {|
  regexp_syntax_ok := regexp_syntax_ok calmEnv;
  regexp_test := regexp_test calmEnv;
  loadFiles := fun _ => inr ["test/a.spec.js"];
  requireFile := fun _ st => test "adds two numbers" 1%nat st;
  callHook := fun _ st => Ok st;
  runnerRun := fun st => Ok st
|}.

End RunnerScripts.

(** * Properties of the reporter *)

Module JUnitListProofs.
Import JUnitList ReporterSamples.

(** [indexOf] answers [-1] exactly on the strings that are not in the
    array. *)
Lemma indexOf_from_absent (l : list string) (x : string) (i : Z) :
  ~ In x l -> indexOf_from i l x = -1.
Proof.
  revert i; induction l as [|y l IH]; intros i Hx; simpl; [reflexivity|].
  destruct (String.eqb_spec y x) as [->|_].
  - exfalso; apply Hx; left; reflexivity.
  - apply IH; intros Hin; apply Hx; right; exact Hin.
Qed.

Lemma indexOf_from_present (l : list string) (x : string) (i : Z) :
  In x l -> i <= indexOf_from i l x.
Proof.
  revert i; induction l as [|y l IH]; intros i Hx; simpl; [destruct Hx|].
  destruct (String.eqb_spec y x) as [->|Hne]; [lia|].
  destruct Hx as [->|Hx]; [congruence|].
  specialize (IH (i + 1) Hx); lia.
Qed.

Section WithDeps.
Variable deps : Deps.

Lemma quiet_console_log (t : string) (r : Min) : quiet (console_log t r) = quiet r.
Proof. reflexivity. Qed.

Lemma quiet_log (t : string) (r : Min) : quiet (log t r) = quiet r.
Proof. reflexivity. Qed.

Lemma quiet_blankLine (r : Min) : quiet (blankLine r) = quiet r.
Proof. reflexivity. Qed.

Lemma quiet_log_lines (ls : list string) (r : Min) :
  quiet (fold_left (fun acc line => log line acc) ls r) = quiet r.
Proof.
  revert r; induction ls as [|l ls IH]; intros r; simpl; [reflexivity|].
  rewrite IH; apply quiet_log.
Qed.

Lemma quiet_printError (f : Failure) (i : Z) (r : Min) :
  quiet (printError deps f i r) = quiet r.
Proof.
  unfold printError.
  rewrite quiet_blankLine.
  destruct (_hasDiff (f_error f)); [rewrite quiet_log_lines|]; reflexivity.
Qed.

Lemma quiet_printErrors (l : list Failure) (i : Z) (r : Min) :
  quiet (printErrors deps l i r) = quiet r.
Proof.
  revert i r; induction l as [|f l IH]; intros i r; simpl; [reflexivity|].
  rewrite IH; apply quiet_printError.
Qed.

Lemma quiet_printStack (e : Errors) (r : Min) :
  quiet (printStack deps e r) = quiet r.
Proof.
  destruct e as [|l|f]; simpl; [reflexivity| |].
  - rewrite quiet_printErrors; reflexivity.
  - rewrite quiet_printError; reflexivity.
Qed.

Lemma start_of_quiet (r r' : Min) : quiet r = quiet r' -> start r = start r'.
Proof. unfold quiet; congruence. Qed.

Lemma finalStats_of_quiet (r r' : Min) :
  quiet r = quiet r' -> finalStats r = finalStats r'.
Proof. unfold quiet; congruence. Qed.

(** Only the start event writes [this.start]. *)
Lemma start_onTestEnd (e : TestEnd) (r : Min) : start (onTestEnd deps e r) = start r.
Proof.
  unfold onTestEnd.
  destruct (indexOf testsStatuses (te_status e) <=? -1); [reflexivity|].
  simpl. destruct (str_truthy (te_regressionMessage e)); reflexivity.
Qed.

Lemma start_onTestsEnd (now : Date) (status : string) (e : Errors) (r : Min) :
  start (onTestsEnd deps now status e r) = start r.
Proof.
  unfold onTestsEnd.
  destruct (total (finalStats (blankLine r)) =? 0); [reflexivity|].
  simpl.
  transitivity (start (printStack deps e (blankLine r))).
  - destruct (String.eqb status "passed"); reflexivity.
  - apply start_of_quiet. rewrite quiet_printStack. reflexivity.
Qed.

Lemma start_handle (now : Date) (ev : Event) (r : Min) :
  isStart ev = false -> start (handle deps now ev r) = start r.
Proof.
  destruct ev; simpl; intros H; try discriminate.
  - apply start_onTestEnd.
  - reflexivity.
  - reflexivity.
  - apply start_onTestsEnd.
Qed.

Lemma start_handleAll (evs : list (Date * Event)) (r : Min) :
  forallb (fun p => negb (isStart (snd p))) evs = true ->
  start (handleAll deps evs r) = start r.
Proof.
  revert r; induction evs as [|[now ev] evs IH]; intros r H; simpl in *; [reflexivity|].
  apply andb_prop in H as [H1 H2].
  rewrite (IH _ H2). apply start_handle.
  destruct (isStart ev); [discriminate|reflexivity].
Qed.

(** On one of the four statuses the handler counts the test. *)
Lemma onTestEnd_known_status (e : TestEnd) (r : Min) :
  In (te_status e) testsStatuses ->
  total (finalStats (onTestEnd deps e r)) = total (finalStats r) + 1
  /\ length (testSuite (onTestEnd deps e r)) = S (length (testSuite r)).
Proof.
  intros H. unfold onTestEnd, indexOf.
  pose proof (indexOf_from_present _ _ 0 H) as Hi.
  destruct (Z.leb_spec (indexOf_from 0 testsStatuses (te_status e)) (-1)) as [Hle|_];
    [lia|].
  assert (Hs : total (bumpStatus (te_status e) (finalStats r)) = total (finalStats r)).
  { unfold bumpStatus. repeat (destruct (String.eqb _ _); [reflexivity|]). reflexivity. }
  split.
  - destruct (te_regression e); simpl; rewrite Hs; reflexivity.
  - simpl. rewrite length_app. simpl.
    destruct (str_truthy (te_regressionMessage e)); simpl; lia.
Qed.

(** When at least one test was counted, the last thing [onTestsEnd]
    prints is the report, whose time is that of [endOf]. *)
Lemma onTestsEnd_report (now : Date) (status : string) (e : Errors) (r : Min) :
  total (finalStats r) <> 0 ->
  last (console (onTestsEnd deps now status e r))
  = Some (statsLines deps (finalStats r) ++ timeLine deps (endOf now r)).
Proof.
  intros Ht. unfold onTestsEnd.
  change (finalStats (blankLine r)) with (finalStats r).
  destruct (Z.eqb_spec (total (finalStats r)) 0) as [E|_]; [contradiction|].
  simpl. rewrite last_snoc. f_equal. f_equal. f_equal.
  transitivity (finalStats (printStack deps e (blankLine r))).
  - destruct (String.eqb status "passed"); reflexivity.
  - apply finalStats_of_quiet. rewrite quiet_printStack. reflexivity.
Qed.

End WithDeps.

(** C9. A [test:end] event whose status is none of ["passed"], ["failed"],
    ["skipped"], ["todo"] leaves the reporter as it was: no counter of the
    final stats moves, no line is printed, and the current test suite gets
    no test case. *)
Theorem onTestEnd_unknown_status (deps : Deps) (e : TestEnd) (r : Min) :
  ~ In (te_status e) testsStatuses ->
  onTestEnd deps e r = r.
Proof.
  intros H. unfold onTestEnd, indexOf.
  rewrite (indexOf_from_absent _ _ 0 H). reflexivity.
Qed.

Lemma onTestEnd_unknown_status_witness :
  ~ In "pending" testsStatuses /\ onTestEnd plainDeps pendingEvent init = init.
Proof.
  assert (H : ~ In (te_status pendingEvent) testsStatuses).
  { simpl. intros [H|[H|[H|[H|[]]]]]; discriminate H. }
  split; [exact H | exact (onTestEnd_unknown_status plainDeps pendingEvent init H)].
Defined.

(** C10. The time of the final summary is the rendering, by [ms], of the
    day of the month read at the end event minus the day of the month read
    at the start event; so when both events fall on the same calendar day
    the summary shows [ms(0)], whatever time went by. *)
Theorem total_time_is_day_difference (deps : Deps) (d1 d2 : Date)
    (evs : list (Date * Event)) (status : string) (errors : Errors) (r : Min) :
  forallb (fun p => negb (isStart (snd p))) evs = true ->
  total (finalStats (handleAll deps evs (onTestsStart d1 r))) <> 0 ->
  let r1 := handleAll deps evs (onTestsStart d1 r) in
  last (console (onTestsEnd deps d2 status errors r1))
  = Some (statsLines deps (finalStats r1) ++ timeLine deps (getDate d2 - getDate d1))
  /\ (sameCalendarDay d1 d2 ->
      last (console (onTestsEnd deps d2 status errors r1))
      = Some (statsLines deps (finalStats r1) ++ timeLine deps 0)).
Proof.
  intros Hev Ht r1.
  assert (E : endOf d2 r1 = getDate d2 - getDate d1).
  { unfold endOf, r1. rewrite (start_handleAll deps evs _ Hev). reflexivity. }
  assert (L := onTestsEnd_report deps d2 status errors r1 Ht).
  rewrite E in L. split; [exact L|].
  intros (_ & _ & Hd). rewrite L. unfold getDate. rewrite Hd, Z.sub_diag. reflexivity.
Qed.

Lemma total_time_is_day_difference_witness :
  msOfDay evening - msOfDay morning = 45000000
  /\ last (console (onTestsEnd plainDeps evening "passed" NoErrors
                      (handleAll plainDeps [(morning, EvTestEnd passedEvent)]
                         (onTestsStart morning init))))
     = Some ("  total : 1" ++ LF ++ "  passed : 1" ++ LF ++ "  time : 0ms").
Proof.
  split; [reflexivity|].
  assert (Hev : forallb (fun p => negb (isStart (snd p)))
                  [(morning, EvTestEnd passedEvent)] = true) by reflexivity.
  assert (Ht : total (finalStats (handleAll plainDeps [(morning, EvTestEnd passedEvent)]
                                    (onTestsStart morning init))) <> 0)
    by (vm_compute; discriminate).
  destruct (total_time_is_day_difference plainDeps morning evening
              [(morning, EvTestEnd passedEvent)] "passed" NoErrors init Hev Ht)
    as [_ Hsame].
  rewrite Hsame; [reflexivity|].
  repeat split; reflexivity.
Defined.

End JUnitListProofs.

(** * Properties of the slim runner *)

Module SlimRunnerProofs.
Import SlimRunner Samples.

Local Open Scope list_scope.

(** ** The heap of groups *)

Lemma alter_last {A : Type} (f : A -> A) (h : list A) (g : A) :
  alter f (length h) (h ++ [g]) = h ++ [f g].
Proof.
  replace (length h) with (length h + 0)%nat by lia.
  rewrite alter_app_r. reflexivity.
Qed.

Lemma state_eta (st : State) : set_heap (heap st) st = st.
Proof. destruct st; reflexivity. Qed.

Lemma addTests_eq (ts : list Test) (g : Group) :
  addTests ts g
  = {| g_title := g_title g; g_options := g_options g;
       g_tests := g_tests g ++ ts; g_hooks := g_hooks g |}.
Proof.
  unfold addTests. revert g; induction ts as [|t ts IH]; intros g; simpl.
  - rewrite app_nil_r. destruct g; reflexivity.
  - rewrite IH. simpl. rewrite <- app_assoc. destruct t; reflexivity.
Qed.

Lemma keeps_refl (h : list Group) : keeps h h.
Proof. intros a g H; exists g; auto. Qed.

Lemma keeps_trans (h1 h2 h3 : list Group) : keeps h1 h2 -> keeps h2 h3 -> keeps h1 h3.
Proof.
  intros H12 H23 a g H.
  destruct (H12 a g H) as (g2 & H2 & Ht2 & Ho2).
  destruct (H23 a g2 H2) as (g3 & H3 & Ht3 & Ho3).
  exists g3; repeat split; congruence.
Qed.

Lemma keeps_app (h l : list Group) : keeps h (h ++ l).
Proof.
  intros a g H; exists g; repeat split.
  apply lookup_app_l_Some; exact H.
Qed.

Lemma keeps_alter (f : Group -> Group) (a : nat) (h : list Group) :
  (forall g, g_title (f g) = g_title g /\ g_options (f g) = g_options g) ->
  keeps h (alter f a h).
Proof.
  intros Hf b g H.
  destruct (decide (a = b)) as [->|Hne].
  - exists (f g). rewrite list_lookup_alter_eq, H. simpl.
    destruct (Hf g); auto.
  - exists g. rewrite list_lookup_alter_ne by exact Hne. auto.
Qed.

Lemma keeps_bind (h : list Group) (r : Res) (k : State -> Res) :
  keeps h (heap (state_of r)) ->
  (forall st, keeps (heap st) (heap (state_of (k st)))) ->
  keeps h (heap (state_of (bind r k))).
Proof.
  intros Hr Hk. destruct r as [st|v st|c st]; simpl in *; auto.
  eapply keeps_trans; [exact Hr | apply Hk].
Qed.

(** A projection of the state that a call leaves as it is and the rest
    leaves as it is, is left as it is by the two in sequence. *)
Lemma frame_bind {X : Type} (P : State -> X) (st : State) (r : Res) (k : State -> Res) :
  P (state_of r) = P st ->
  (forall st', P (state_of (k st')) = P st') ->
  P (state_of (bind r k)) = P st.
Proof.
  intros Hr Hk. destruct r as [st1|v st1|c st1]; simpl in *; auto.
  rewrite Hk; exact Hr.
Qed.

Section WithEnv.
Variable env : Env.

(** ** [configure] *)

Lemma configureFields_grep (o : ConfigureOptions) (st : State) :
  grep (runnerOptions (configureFields o st)) = grep (runnerOptions st).
Proof.
  destruct o as [[?|] [?|] [?|] [?|] [?|] [?|] [?|] ?]; reflexivity.
Qed.

Lemma configureFields_regexpLog (o : ConfigureOptions) (st : State) :
  regexpLog (configureFields o st) = regexpLog st.
Proof.
  destruct o as [[?|] [?|] [?|] [?|] [?|] [?|] [?|] ?]; reflexivity.
Qed.

Lemma configureFields_heap (o : ConfigureOptions) (st : State) :
  heap (configureFields o st) = heap st.
Proof.
  destruct o as [[?|] [?|] [?|] [?|] [?|] [?|] [?|] ?]; reflexivity.
Qed.

Lemma configureGrep_heap (g : option Grep) (st : State) :
  heap (state_of (configureGrep env g st)) = heap st.
Proof.
  destruct g as [[s|r]|]; simpl; try reflexivity.
  destruct (str_truthy s); [|reflexivity].
  destruct (regexp_syntax_ok env s); reflexivity.
Qed.

Lemma configure_heap (o : ConfigureOptions) (st : State) :
  heap (state_of (configure env o st)) = heap st.
Proof.
  unfold configure. destruct (negb _); [reflexivity|].
  rewrite configureGrep_heap. apply configureFields_heap.
Qed.

Lemma configure_with_groups (o : ConfigureOptions) (st : State) :
  groups st <> [] -> configure env o st = Throw configureError st.
Proof.
  intros H. unfold configure.
  destruct (groups st) as [|a l]; [contradiction|reflexivity].
Qed.

Lemma configure_without_groups (o : ConfigureOptions) (st : State) :
  groups st = [] ->
  configure env o st = configureGrep env (o_grep o) (configureFields o st).
Proof. intros H. unfold configure. rewrite H. reflexivity. Qed.

Lemma configure_grep_unset (o : ConfigureOptions) (st : State) :
  setsGrep o = false ->
  grep (runnerOptions (state_of (configure env o st))) = grep (runnerOptions st).
Proof.
  intros H. unfold configure. destruct (negb _); [reflexivity|].
  unfold setsGrep in H. unfold configureGrep.
  destruct (o_grep o) as [[s|r]|]; try discriminate.
  - rewrite H. apply configureFields_grep.
  - apply configureFields_grep.
Qed.

(** ** [addTest] and [test.group] *)

Lemma addTest_keeps (title : string) (cb : FnId) (o : TestOptions) (st : State) :
  keeps (heap st) (heap (state_of (addTest title cb o st))).
Proof.
  unfold addTest.
  destruct (activeGroup st) as [a|] eqn:Ha.
  - rewrite Ha. simpl. apply keeps_alter. intros g; split; reflexivity.
  - simpl. eapply keeps_trans; [apply keeps_app|].
    apply keeps_alter. intros g; split; reflexivity.
Qed.

Lemma addTest_runnerOptions (title : string) (cb : FnId) (o : TestOptions) (st : State) :
  runnerOptions (state_of (addTest title cb o st)) = runnerOptions st.
Proof.
  unfold addTest. destruct (activeGroup st) as [a|] eqn:Ha.
  - rewrite Ha. reflexivity.
  - reflexivity.
Qed.

(** A test declared when no group is active opens a group titled
    ["root"], which it is the first test of. *)
Lemma addTest_no_active (title : string) (cb : FnId) (o : TestOptions) (st : State) :
  activeGroup st = None ->
  addTest title cb o st
  = Ok (set_heap (heap st ++ [Group_test title cb o (Group_new "root" (runnerOptions st))])
          (pushGroup "root" st)).
Proof.
  intros Ha. unfold addTest. rewrite Ha. simpl.
  rewrite alter_last. reflexivity.
Qed.

(** A test declared when the last allocated group is active is put in it. *)
Lemma addTest_active (title : string) (cb : FnId) (o : TestOptions) (st : State)
    (h0 : list Group) (g : Group) :
  heap st = h0 ++ [g] -> activeGroup st = Some (length h0) ->
  addTest title cb o st = Ok (set_heap (h0 ++ [Group_test title cb o g]) st).
Proof.
  intros Hh Ha. unfold addTest. rewrite Ha. simpl.
  rewrite Ha, Hh, alter_last. reflexivity.
Qed.

Lemma addTest_listed (title : string) (cb : FnId) (o : TestOptions) (st st' : State) :
  activeListed st -> addTest title cb o st = Ok st' -> groups st' <> [].
Proof.
  unfold activeListed, addTest. intros Hinv.
  destruct (activeGroup st) as [a|] eqn:Ha.
  - rewrite Ha. intros [= <-]. simpl. intros E. rewrite E in Hinv. exact Hinv.
  - simpl. intros [= <-]. simpl. intros E. apply app_eq_nil in E as [_ E]. discriminate.
Qed.

Lemma exec_flat (ds : list GroupDecl) (g : Group) (h0 : list Group) (st : State) :
  heap st = h0 ++ [g] -> activeGroup st = Some (length h0) ->
  exec env (flat ds) (Some (length h0)) st
  = Ok (set_heap (h0 ++ [fold_left applyDecl ds g]) st).
Proof.
  revert g st; induction ds as [|d ds IH]; intros g st Hh Ha; simpl.
  - rewrite <- Hh, state_eta. reflexivity.
  - destruct d as [o title cb|kind fn]; simpl.
    + rewrite (addTest_active title cb o st h0 g Hh Ha). simpl.
      rewrite (IH (Group_test title cb o g)); [reflexivity|reflexivity|exact Ha].
    + rewrite Hh, alter_last.
      rewrite (IH (Group_hook kind fn g)); [reflexivity|reflexivity|exact Ha].
Qed.

Lemma exec_declare (ts : list Test) (rest : Script) (self : option nat)
    (g : Group) (h0 : list Group) (st : State) :
  heap st = h0 ++ [g] -> activeGroup st = Some (length h0) ->
  exec env (declare ts rest) self st
  = exec env rest self (set_heap (h0 ++ [addTests ts g]) st).
Proof.
  revert g st; induction ts as [|t ts IH]; intros g st Hh Ha; simpl.
  - rewrite <- Hh, state_eta. reflexivity.
  - rewrite (addTest_active _ _ _ st h0 g Hh Ha). simpl.
    rewrite (IH (Group_test (t_title t) (t_callback t) (t_options t) g));
      [reflexivity|reflexivity|exact Ha].
Qed.

(** ** Scripts *)

Lemma exec_keeps (s : Script) :
  forall self st, keeps (heap st) (heap (state_of (exec env s self st))).
Proof.
  induction s as [|o title cb rest IH|title body IHb rest IHr|kind fn rest IH
                 |o rest IH|rest IH|v]; intros self st; simpl.
  - apply keeps_refl.
  - apply keeps_bind; [apply addTest_keeps | intros; apply IH].
  - apply keeps_bind; [|intros; apply IHr].
    unfold group. apply keeps_bind.
    + eapply keeps_trans; [|apply IHb]. apply keeps_app.
    + intros st'. apply keeps_refl.
  - destruct self as [a|]; [|apply keeps_refl].
    eapply keeps_trans; [|apply IH]. simpl.
    apply keeps_alter. intros g; destruct kind; split; reflexivity.
  - apply keeps_bind; [|intros; apply IH].
    rewrite configure_heap. apply keeps_refl.
  - apply (IH self (reset st)).
  - apply keeps_refl.
Qed.

Lemma exec_grep_unset (s : Script) :
  neverSetsGrep s = true ->
  forall self st,
    grep (runnerOptions (state_of (exec env s self st))) = grep (runnerOptions st).
Proof.
  induction s as [|o title cb rest IH|title body IHb rest IHr|kind fn rest IH
                 |o rest IH|rest IH|v]; intros Hs self st; simpl in *.
  - reflexivity.
  - apply (frame_bind (fun s => grep (runnerOptions s))).
    + rewrite addTest_runnerOptions. reflexivity.
    + intros; apply IH; exact Hs.
  - apply andb_prop in Hs as [Hb Hr].
    apply (frame_bind (fun s => grep (runnerOptions s))); [|intros; apply IHr; exact Hr].
    unfold group.
    apply (frame_bind (fun s => grep (runnerOptions s))); [|reflexivity].
    rewrite (IHb Hb). reflexivity.
  - destruct self as [a|]; [|reflexivity].
    rewrite (IH Hs). reflexivity.
  - apply andb_prop in Hs as [Ho Hr].
    apply (frame_bind (fun s => grep (runnerOptions s))); [|intros; apply IH; exact Hr].
    apply configure_grep_unset. destruct (setsGrep o); [discriminate|reflexivity].
  - rewrite (IH Hs). reflexivity.
  - reflexivity.
Qed.

End WithEnv.

Lemma str_truthy_true (s : string) : s <> "" -> str_truthy s = true.
Proof.
  intros H. unfold str_truthy. destruct (String.eqb_spec s ""); [contradiction|reflexivity].
Qed.

(** ** The claims on the declaration API *)

(** C3, as stated, fails: with no group at all, [configure] throws when
    the [grep] string is not a pattern ([new RegExp('(')] throws). *)
Lemma configure_throws_without_groups :
  groups init = []
  /\ configure calmEnv (grepOnly (GrepSource "(")) init
     = Throw (regexpSyntaxError "(") (set_regexpLog ["("] init).
Proof. split; reflexivity. Qed.

(** C3 (amended). When at least one group exists, [configure] throws its
    error and leaves the whole state as it was. When no group exists it
    returns, unless [grep] is a non-empty string that [new RegExp] rejects:
    then the error of [new RegExp] is thrown. *)
Theorem configure_guard (env : Env) (o : ConfigureOptions) (st : State) :
  (groups st <> [] -> configure env o st = Throw configureError st)
  /\ (groups st = [] -> grepCompiles env (o_grep o) = true ->
      exists st', configure env o st = Ok st')
  /\ (groups st = [] -> grepCompiles env (o_grep o) = false ->
      exists s st', o_grep o = Some (GrepSource s)
                    /\ configure env o st = Throw (regexpSyntaxError s) st').
Proof.
  split; [apply configure_with_groups|].
  split; intros Hg Hc; rewrite (configure_without_groups env o st Hg);
    unfold grepCompiles in Hc; unfold configureGrep;
    destruct (o_grep o) as [[s|r]|]; try discriminate; eauto.
  - destruct (str_truthy s); simpl in Hc; [rewrite Hc|]; eauto.
  - destruct (str_truthy s); simpl in Hc; [rewrite Hc|discriminate]; eauto.
Qed.

Lemma configure_guard_witness :
  (groups oneTestDeclared <> []
   /\ configure calmEnv bailFast oneTestDeclared = Throw configureError oneTestDeclared)
  /\ (groups init = [] /\ grepCompiles calmEnv (o_grep bailFast) = true
      /\ exists st', configure calmEnv bailFast init = Ok st').
Proof.
  assert (H1 : groups oneTestDeclared <> []) by (vm_compute; discriminate).
  assert (H2 : groups init = []) by reflexivity.
  assert (H3 : grepCompiles calmEnv (o_grep bailFast) = true) by reflexivity.
  destruct (configure_guard calmEnv bailFast oneTestDeclared) as (A & _ & _).
  destruct (configure_guard calmEnv bailFast init) as (_ & B & _).
  split; [split; [exact H1 | exact (A H1)] | repeat split; [exact (B H2 H3)]].
Defined.

(** C6, as stated, fails: the raw string [''] is not compiled, and the
    pattern of an earlier call stays in place. *)
Lemma empty_grep_not_compiled :
  exists st, exec calmEnv grepThenEmpty None init = Ok st
    /\ grep (runnerOptions st) = Some (RegExp_new "foo")
    /\ grep (runnerOptions st) <> Some (RegExp_new "")
    /\ regexpLog st = ["foo"].
Proof.
  eexists; split; [reflexivity|].
  split; [reflexivity|]. split; [discriminate|reflexivity].
Qed.

(** C6 (amended). In a call of [configure] that passes the guard: a
    non-empty raw string that is a pattern is compiled, once, and the
    [RegExp] is stored; an empty string changes nothing; a [RegExp] is
    stored as it is, and nothing is compiled. As long as no call sets
    [grep], the filter lets every title through. *)
Theorem grep_normalized (env : Env) :
  (forall o st, groups st = [] ->
     (forall s, o_grep o = Some (GrepSource s) -> s <> "" ->
        regexp_syntax_ok env s = true ->
        exists st', configure env o st = Ok st'
          /\ grep (runnerOptions st') = Some (RegExp_new s)
          /\ regexpLog st' = regexpLog st ++ [s])
     /\ (o_grep o = Some (GrepSource "") ->
         exists st', configure env o st = Ok st'
           /\ grep (runnerOptions st') = grep (runnerOptions st)
           /\ regexpLog st' = regexpLog st)
     /\ (forall r, o_grep o = Some (GrepRegExp r) ->
         exists st', configure env o st = Ok st'
           /\ grep (runnerOptions st') = Some r
           /\ regexpLog st' = regexpLog st))
  /\ (forall s self st', neverSetsGrep s = true ->
        exec env s self init = Ok st' ->
        forall title, grepMatches env (runnerOptions st') title = true).
Proof.
  split.
  - intros o st Hg. rewrite (configure_without_groups env o st Hg).
    unfold configureGrep. repeat split.
    + intros s -> Hs Hok. rewrite (str_truthy_true s Hs), Hok.
      eexists; split; [reflexivity|]. simpl.
      rewrite configureFields_regexpLog. auto.
    + intros ->. simpl. eexists; split; [reflexivity|].
      rewrite configureFields_grep, configureFields_regexpLog. auto.
    + intros r ->. eexists; split; [reflexivity|]. simpl.
      rewrite configureFields_regexpLog. auto.
  - intros s self st' Hs Hex title. unfold grepMatches.
    assert (E := exec_grep_unset env s Hs self init).
    rewrite Hex in E. simpl in E. rewrite E. reflexivity.
Qed.

Lemma grep_normalized_witness :
  (exists st', configure calmEnv (grepOnly (GrepSource "adds")) init = Ok st'
     /\ grep (runnerOptions st') = Some (RegExp_new "adds")
     /\ regexpLog st' = ["adds"])
  /\ grepMatches calmEnv
       (runnerOptions (state_of (exec calmEnv testGroupTest None init)))
       "subtracts two numbers" = true.
Proof.
  destruct (grep_normalized calmEnv) as [A B]. split.
  - destruct (A (grepOnly (GrepSource "adds")) init eq_refl) as (Ha & _ & _).
    apply (Ha "adds" eq_refl); [discriminate | reflexivity].
  - apply (B testGroupTest None _ eq_refl eq_refl).
Defined.

(** C4, as stated, fails: a test declared at top level after a group
    opens a second group titled ["root"]. *)
Lemma two_root_groups :
  exists st, exec calmEnv testGroupTest None init = Ok st
    /\ groupTitles st = ["root"; "g"; "root"]
    /\ map (fun g => map t_title (g_tests g)) (heap st) = [["a"]; []; ["b"]].
Proof. eexists; repeat split; reflexivity. Qed.

(** C4 (amended). Tests declared one after another, starting when no
    group is active and with no call of [test.group] in between, are
    collected in one new group titled ["root"], in the order of their
    declaration; that group is put last in the list and is the active one,
    and the groups that were there are as they were. *)
Theorem root_group_collects (env : Env) (ts : list Test) (self : option nat)
    (st : State) :
  activeGroup st = None -> ts <> [] ->
  exec env (declare ts SEnd) self st
  = Ok (set_groups (groups st ++ [length (heap st)])
          (set_activeGroup (Some (length (heap st)))
             (set_heap
                (heap st ++ [{| g_title := "root"; g_options := runnerOptions st;
                                g_tests := ts; g_hooks := noHooks |}])
                st))).
Proof.
  intros Ha Hts. destruct ts as [|t ts]; [contradiction|]. simpl.
  rewrite (addTest_no_active _ _ _ st Ha). simpl.
  rewrite (exec_declare env ts SEnd self
             (Group_test (t_title t) (t_callback t) (t_options t)
                (Group_new "root" (runnerOptions st)))
             (heap st)); [|reflexivity|reflexivity].
  simpl. rewrite addTests_eq. simpl. destruct t; reflexivity.
Qed.

Lemma root_group_collects_witness :
  exists st, exec calmEnv
               (declare [{| t_title := "a"; t_callback := 1%nat; t_options := NoOptions |};
                         {| t_title := "b"; t_callback := 2%nat; t_options := Skip |}] SEnd)
               None init = Ok st
    /\ groupTitles st = ["root"]
    /\ map (fun g => map t_title (g_tests g)) (heap st) = [["a"; "b"]].
Proof.
  eexists. split.
  - apply (root_group_collects calmEnv); [reflexivity | discriminate].
  - split; reflexivity.
Defined.

(** C7, as stated, fails: a test declared in the callback after a nested
    call of [test.group] is not in the group of the callback, which stays
    empty, but in a new group titled ["root"]. *)
Lemma nested_group_test_escapes :
  exists st, group "outer" (fun a => exec calmEnv innerThenTest (Some a)) init = Ok st
    /\ groupTitles st = ["outer"; "inner"; "root"]
    /\ map (fun g => map t_title (g_tests g)) (heap st) = [[]; []; ["t"]].
Proof. eexists; repeat split; reflexivity. Qed.

(** C7 (amended). [test.group (title, callback)] pushes a new group, with
    the title, the current options and empty hook slots, and runs the
    callback before it returns. When the callback declares tests and sets
    hooks on its group and does nothing else, the group holds, when
    [test.group] returns, every one of these tests and hooks, in order;
    and no group is active. *)
Theorem group_attaches (env : Env) (title : string) (ds : list GroupDecl) (st : State) :
  group title (fun a => exec env (flat ds) (Some a)) st
  = Ok (set_activeGroup None
          (set_groups (groups st ++ [length (heap st)])
             (set_heap
                (heap st ++ [fold_left applyDecl ds (Group_new title (runnerOptions st))])
                st))).
Proof.
  unfold group.
  rewrite (exec_flat env ds (Group_new title (runnerOptions st)) (heap st));
    reflexivity.
Qed.

(** C5. A group has the options the module had when it was created, by
    [test.group] or by the first test at top level, whatever the script
    does afterwards: more declarations, a run, calls of [configure] that
    change the options of the module. Besides, [configure] changes no
    option of the module as long as a group is in the list. *)
Theorem group_options_snapshot (env : Env) (self : option nat) (st : State) :
  (forall title body rest,
     exists g,
       heap (state_of (exec env (SGroup title body rest) self st)) !! length (heap st)
       = Some g
       /\ g_title g = title /\ g_options g = runnerOptions st)
  /\ (forall o title cb rest, activeGroup st = None ->
      exists g,
        heap (state_of (exec env (STest o title cb rest) self st)) !! length (heap st)
        = Some g
        /\ g_title g = "root" /\ g_options g = runnerOptions st)
  /\ (forall o, groups st <> [] ->
      runnerOptions (state_of (configure env o st)) = runnerOptions st).
Proof.
  split; [|split].
  - intros title body rest.
    assert (K : keeps (heap (pushGroup title st))
                  (heap (state_of (exec env (SGroup title body rest) self st)))).
    { change (exec env (SGroup title body rest) self st)
        with (bind (group title (fun a => exec env body (Some a)) st) (exec env rest self)).
      apply keeps_bind; [|intros; apply exec_keeps].
      unfold group. apply keeps_bind; [apply exec_keeps | intros; apply keeps_refl]. }
    destruct (K (length (heap st)) (Group_new title (runnerOptions st)))
      as (g & Hg & Ht & Ho).
    { simpl. apply list_lookup_middle. reflexivity. }
    exists g; auto.
  - intros o title cb rest Ha.
    assert (K : keeps (heap st ++ [Group_test title cb o (Group_new "root" (runnerOptions st))])
                  (heap (state_of (exec env (STest o title cb rest) self st)))).
    { change (exec env (STest o title cb rest) self st)
        with (bind (addTest title cb o st) (exec env rest self)).
      rewrite (addTest_no_active title cb o st Ha).
      exact (exec_keeps env rest self
               (set_heap (heap st ++ [Group_test title cb o (Group_new "root" (runnerOptions st))])
                  (pushGroup "root" st))). }
    destruct (K (length (heap st)) (Group_test title cb o (Group_new "root" (runnerOptions st))))
      as (g & Hg & Ht & Ho).
    { apply list_lookup_middle. reflexivity. }
    exists g; auto.
  - intros o Hg. rewrite (configure_with_groups env o st Hg). reflexivity.
Qed.

Lemma group_options_snapshot_witness :
  runnerOptions (state_of (exec calmEnv groupRunConfigure None init))
  = {| bail := true; timeout := 5000; grep := None |}
  /\ (exists g, heap (state_of (exec calmEnv groupRunConfigure None init)) !! 0%nat = Some g
        /\ g_title g = "g"
        /\ g_options g = {| bail := false; timeout := 2000; grep := None |})
  /\ (activeGroup init = None
      /\ exists g, heap (state_of (exec calmEnv testGroupTest None init)) !! 0%nat = Some g
           /\ g_title g = "root"
           /\ g_options g = {| bail := false; timeout := 2000; grep := None |}).
Proof.
  destruct (group_options_snapshot calmEnv None init) as (A & B & _).
  split; [reflexivity|]. split.
  - exact (A "g" SEnd (SReset (SConfigure bailFast SEnd))).
  - split; [reflexivity|].
    exact (B NoOptions "a" 1%nat (SGroup "g" SEnd (STest NoOptions "b" 2%nat SEnd)) eq_refl).
Defined.

(** ** [run] *)

(** Hooks that all return were all called, in the order of the array. *)
Lemma runHooks_trace (env : Env) (ev : FnId -> Event) (hooks : list FnId) :
  forall st tr st', runHooks env ev hooks st = (tr, Ok st') -> tr = map ev hooks.
Proof.
  induction hooks as [|h hooks IH]; intros st tr st' H; simpl in H.
  - injection H as <- _. reflexivity.
  - unfold andThen in H. destruct (callHook env h st) as [st1|v st1|c st1];
      try discriminate.
    destruct (runHooks env ev hooks st1) as [tr1 r1] eqn:E.
    injection H as <- ->. simpl. f_equal. exact (IH _ _ _ E).
Qed.

Lemma beforePhase_trace (env : Env) (st st1 : State) (tr : list Event) :
  beforePhase env st = (tr, Ok st1) -> tr = map EBeforeHook (beforeHooks st).
Proof. unfold beforePhase. intros H. apply runHooks_trace in H. exact H. Qed.

Lemma afterPhase_trace (env : Env) (st st1 : State) (tr : list Event) :
  afterPhase env st = (tr, Ok st1) -> tr = map EAfterHook (afterHooks st).
Proof. unfold afterPhase. intros H. apply runHooks_trace in H. exact H. Qed.

(** [run] when every step before the exit returns. *)
Lemma run_to_exit (env : Env) (exitProcess : bool) (st st1 st2 st3 st4 : State)
    (tr1 tr2 tr4 : list Event) (caught : option JsVal) :
  beforePhase env st = (tr1, Ok st1) ->
  loadPhase env st1 = (tr2, Ok st2) ->
  tryRunner env st2 = (Ok st3, caught) ->
  afterPhase env st3 = (tr4, Ok st4) ->
  run env exitProcess st
  = (tr1 ++ tr2 ++ [ERunnerRun] ++ tr4 ++ fst (exitPhase exitProcess caught st4),
     snd (exitPhase exitProcess caught st4)).
Proof.
  intros H1 H2 H3 H4. unfold run.
  rewrite H1. cbn [andThen]. rewrite H2. cbn [andThen]. rewrite H3.
  cbn [andThen]. rewrite H4. cbn [andThen].
  destruct (exitPhase exitProcess caught st4) as [tr5 r5]. reflexivity.
Qed.

(** C8. When groups are registered at the time the loader is asked for
    the suite files, and it finds at least one, [run] prints the message
    and exits with code 1; before that it has called the before hooks and
    the loader only: no file is required and [runner.run()] is not called. *)
Theorem run_guard (env : Env) (exitProcess : bool) (st st1 : State)
    (tr : list Event) (files : list string) :
  beforePhase env st = (tr, Ok st1) ->
  loadFiles env (loader st1) = inr files ->
  files <> [] -> groups st1 <> [] ->
  run env exitProcess st
  = (map EBeforeHook (beforeHooks st) ++ [ELoadFiles; ELog guardMessage; EExit 1],
     Exit 1 st1).
Proof.
  intros Hb Hl Hf Hg. unfold run.
  rewrite Hb. cbn [andThen]. unfold loadPhase. rewrite Hl.
  destruct files as [|f files]; [contradiction|].
  destruct (groups st1) as [|a l]; [contradiction|].
  simpl. rewrite (beforePhase_trace env st st1 tr Hb). reflexivity.
Qed.

Lemma run_guard_witness :
  groups oneTestDeclared <> []
  /\ run loadingEnv true oneTestDeclared
     = ([ELoadFiles; ELog guardMessage; EExit 1],
        Exit 1 (set_runner {| rn_reporter := Some listReporter; rn_hasErrors := false |}
                  oneTestDeclared)).
Proof.
  assert (Hg : groups oneTestDeclared <> []) by (vm_compute; discriminate).
  split; [exact Hg|].
  apply (run_guard loadingEnv true oneTestDeclared _ [] ["test/math.spec.js"]).
  - reflexivity.
  - reflexivity.
  - discriminate.
  - exact Hg.
Defined.

(** C1, as stated, fails: with a group registered and a suite file found,
    the process exits with code 1 although no failure was recorded and
    [runner.run()], which was not called, threw nothing. *)
Lemma guard_exit_without_failure :
  exists st', run loadingEnv true oneTestDeclared
              = ([ELoadFiles; ELog guardMessage; EExit 1], Exit 1 st')
    /\ rn_hasErrors (runner st') = false.
Proof. eexists; split; reflexivity. Qed.

(** C1 (amended). When [run], with [exitProcess] true, comes to its exit
    statement (the before hooks, the loader, the suite files and the after
    hooks returned and the guard on the loader did not fire) and what
    [runner.run()] threw, if anything, is truthy, the process exits with
    code 0 if [hasErrors] is false and nothing was caught, and with code 1
    otherwise. *)
Theorem run_exit_code (env : Env) (st st1 st2 st3 st4 : State)
    (tr1 tr2 tr4 : list Event) (caught : option JsVal) :
  beforePhase env st = (tr1, Ok st1) ->
  loadPhase env st1 = (tr2, Ok st2) ->
  tryRunner env st2 = (Ok st3, caught) ->
  afterPhase env st3 = (tr4, Ok st4) ->
  (forall v, caught = Some v -> truthy v = true) ->
  exists code,
    run env true st
    = (tr1 ++ tr2 ++ [ERunnerRun] ++ tr4 ++ [EExit code], Exit code st4)
    /\ (code = 0 <-> rn_hasErrors (runner st4) = false /\ caught = None)
    /\ (code <> 0 -> code = 1).
Proof.
  intros H1 H2 H3 H4 Hv.
  rewrite (run_to_exit env true st st1 st2 st3 st4 tr1 tr2 tr4 caught H1 H2 H3 H4).
  unfold exitPhase.
  destruct (rn_hasErrors (runner st4)) eqn:He; simpl.
  - exists 1. split; [reflexivity|]. split; [|reflexivity].
    split; [discriminate | intros [? _]; discriminate].
  - destruct caught as [v|]; simpl.
    + rewrite (Hv v eq_refl). exists 1. split; [reflexivity|]. split; [|reflexivity].
      split; [discriminate | intros [_ ?]; discriminate].
    + exists 0. split; [reflexivity|]. split; [|intros H; contradiction].
      split; auto.
Qed.

Lemma run_exit_code_witness :
  run calmEnv true init
  = ([ELoadFiles; ERunnerRun; EExit 0],
     Exit 0 (set_runner {| rn_reporter := Some listReporter; rn_hasErrors := false |} init))
  /\ run crashingEnv true init
     = ([ELoadFiles; ERunnerRun; EExit 1],
        Exit 1 (set_runner {| rn_reporter := Some listReporter; rn_hasErrors := false |} init)).
Proof.
  split.
  - destruct (run_exit_code calmEnv init _ _ _ _ [] [ELoadFiles] [] None
                eq_refl eq_refl eq_refl eq_refl) as (code & Hr & Hc & _).
    + intros v Hv; discriminate Hv.
    + destruct Hc as [_ Hc]. rewrite (Hc (conj eq_refl eq_refl)) in Hr. exact Hr.
  - destruct (run_exit_code crashingEnv init _ _ _ _ [] [ELoadFiles] []
                (Some (JError "boom")) eq_refl eq_refl eq_refl eq_refl)
      as (code & Hr & Hc & H1).
    + intros v Hv; injection Hv as <-; reflexivity.
    + assert (Hn : code <> 0).
      { intros E. destruct Hc as [Hc _]. destruct (Hc E) as [_ Hnone]. discriminate Hnone. }
      rewrite (H1 Hn) in Hr. exact Hr.
Defined.

(** The exit statement tests the caught value for truthiness: when
    [runner.run()] throws [null], the process exits with code 0. *)
Example falsy_throw_exits_with_0 :
  run (sampleEnv [] None (Some JNull)) true init
  = ([ELoadFiles; ERunnerRun; EExit 0],
     Exit 0 (set_runner {| rn_reporter := Some listReporter; rn_hasErrors := false |} init)).
Proof. reflexivity. Qed.

(** A before hook that throws makes [run] reject at once: nothing is
    loaded or run, and there is no exit. *)
Example before_hook_throw_rejects :
  run crashingHookEnv true
    (state_of (configure calmEnv
                 {| o_reporterFn := None; o_bail := None; o_timeout := None;
                    o_files := None; o_filter := None; o_before := Some [1%nat];
                    o_after := None; o_grep := None |} init))
  = ([EBeforeHook 1%nat],
     Throw (JError "hook failed")
       (set_runner {| rn_reporter := Some listReporter; rn_hasErrors := false |}
          (set_beforeHooks [1%nat] init))).
Proof. reflexivity. Qed.

(** C2, as stated, fails: when the first of two after hooks throws, the
    second one is not called and [run] rejects without any exit. *)
Lemma after_hook_throw_skips_rest :
  afterHooks withAfterHooks = [1%nat; 2%nat]
  /\ exists st', run crashingHookEnv true withAfterHooks
                 = ([ELoadFiles; ERunnerRun; EAfterHook 1%nat],
                    Throw (JError "hook failed") st').
Proof. split; [reflexivity|]. eexists; reflexivity. Qed.

(** C2 (amended). What [runner.run()] throws is caught and does not leave
    [run]. The after hooks are then called, in order, every one of them
    when none of them throws; after them, if the caught value is truthy
    and [exitProcess] is true, the process exits with code 1, and if
    [exitProcess] is false [run] returns. *)
Theorem hard_exception_contained (env : Env) (st st1 st2 st3 st4 : State)
    (tr1 tr2 tr4 : list Event) (v : JsVal) :
  beforePhase env st = (tr1, Ok st1) ->
  loadPhase env st1 = (tr2, Ok st2) ->
  runnerRun env st2 = Throw v st3 ->
  afterPhase env st3 = (tr4, Ok st4) ->
  (truthy v = true ->
   run env true st
   = (tr1 ++ tr2 ++ [ERunnerRun] ++ map EAfterHook (afterHooks st3) ++ [EExit 1],
      Exit 1 st4))
  /\ run env false st
     = (tr1 ++ tr2 ++ [ERunnerRun] ++ map EAfterHook (afterHooks st3), Ok (reset st4)).
Proof.
  intros H1 H2 H3 H4.
  assert (Ht : tryRunner env st2 = (Ok st3, Some v)).
  { unfold tryRunner. rewrite H3. reflexivity. }
  rewrite <- (afterPhase_trace env st3 st4 tr4 H4).
  split.
  - intros Hv.
    rewrite (run_to_exit env true st st1 st2 st3 st4 tr1 tr2 tr4 (Some v) H1 H2 Ht H4).
    unfold exitPhase. simpl. rewrite Hv, orb_true_r. reflexivity.
  - rewrite (run_to_exit env false st st1 st2 st3 st4 tr1 tr2 tr4 (Some v) H1 H2 Ht H4).
    simpl. rewrite app_nil_r. reflexivity.
Qed.

Lemma hard_exception_contained_witness :
  exists st4,
    run crashingEnv true withAfterHooks
    = ([ELoadFiles; ERunnerRun; EAfterHook 1%nat; EAfterHook 2%nat; EExit 1], Exit 1 st4).
Proof.
  eexists.
  destruct (hard_exception_contained crashingEnv withAfterHooks _ _ _ _
              [] [ELoadFiles] [EAfterHook 1%nat; EAfterHook 2%nat] (JError "boom")
              eq_refl eq_refl eq_refl eq_refl) as [A _].
  exact (A eq_refl).
Defined.

End SlimRunnerProofs.

(** * Further properties of the reporter *)

Module JUnitListExtraProofs.
Import JUnitList ReporterSamples ReporterMeasures ReporterRuns.

Local Open Scope list_scope.

(** The first test of [onTestEnd] is membership in [testsStatuses]. *)
Lemma counted_In (e : TestEnd) : counted e = true <-> In (te_status e) testsStatuses.
Proof.
  unfold counted, indexOf. split.
  - intros H. destruct (in_dec string_dec (te_status e) testsStatuses) as [Hin|Hn]; [exact Hin|].
    rewrite (JUnitListProofs.indexOf_from_absent _ _ 0 Hn) in H. discriminate H.
  - intros H. pose proof (JUnitListProofs.indexOf_from_present _ _ 0 H) as Hi.
    destruct (Z.leb_spec (indexOf_from 0 testsStatuses (te_status e)) (-1)); [lia|reflexivity].
Qed.

Section WithDeps.
Variable deps : Deps.

Lemma onTestEnd_uncounted (e : TestEnd) (r : Min) :
  counted e = false -> onTestEnd deps e r = r.
Proof.
  unfold counted, onTestEnd. intros H.
  destruct (indexOf testsStatuses (te_status e) <=? -1); [reflexivity|discriminate H].
Qed.

(** What a counted event does to the fields. *)
Lemma onTestEnd_counted (e : TestEnd) (r : Min) :
  counted e = true ->
  fields (onTestEnd deps e r)
  = (activeGroup r, start r, testSuite r ++ [caseOf e], testSuites r,
     (if te_regression e then bumpRegression else fun f => f)
       (bumpTotal (bumpStatus (te_status e) (finalStats r))),
     count r + 1,
     match te_error e with Some _ => failCount r + 1 | None => failCount r end,
     testSuitesDuration r, testSuiteDuration r + te_duration e)
  /\ result_xml (onTestEnd deps e r) = result_xml r.
Proof.
  unfold counted, onTestEnd. intros H.
  destruct (indexOf testsStatuses (te_status e) <=? -1); [discriminate H|].
  unfold fields. simpl.
  destruct (str_truthy (te_regressionMessage e)), (te_regression e), (te_error e);
    split; reflexivity.
Qed.

(** Printing leaves the fields alone. *)
Lemma fields_log_lines (ls : list string) (r : Min) :
  fields (fold_left (fun acc line => log line acc) ls r) = fields r
  /\ result_xml (fold_left (fun acc line => log line acc) ls r) = result_xml r.
Proof.
  revert r; induction ls as [|l ls IH]; intros r; simpl; [split; reflexivity|].
  destruct (IH (log l r)) as [-> ->]. split; reflexivity.
Qed.

Lemma fields_printError (f : Failure) (i : Z) (r : Min) :
  fields (printError deps f i r) = fields r
  /\ result_xml (printError deps f i r) = result_xml r.
Proof.
  unfold printError.
  destruct (_hasDiff (f_error f)); [|split; reflexivity].
  match goal with |- context [fold_left ?g ?ls ?r0] =>
    destruct (fields_log_lines ls r0) as [E1 E2] end.
  split.
  - change (fields (blankLine ?x)) with (fields x). rewrite E1. reflexivity.
  - change (result_xml (blankLine ?x)) with (result_xml x). rewrite E2. reflexivity.
Qed.

Lemma fields_printErrors (l : list Failure) (i : Z) (r : Min) :
  fields (printErrors deps l i r) = fields r
  /\ result_xml (printErrors deps l i r) = result_xml r.
Proof.
  revert i r; induction l as [|f l IH]; intros i r; simpl; [split; reflexivity|].
  destruct (IH (i + 1) (printError deps f i r)) as [-> ->].
  apply fields_printError.
Qed.

Lemma fields_printStack (e : Errors) (r : Min) :
  fields (printStack deps e r) = fields r
  /\ result_xml (printStack deps e r) = result_xml r.
Proof.
  destruct e as [|l|f]; unfold printStack; [split; reflexivity| |].
  - destruct (fields_printErrors l 0
                (blankLine (log (chalk deps "bgRed" " ERRORS ") (blankLine r)))) as [E1 E2].
    split; [rewrite E1|rewrite E2]; reflexivity.
  - destruct (fields_printError f 5
                (blankLine (log (chalk deps "bgRed" " ERRORS ") (blankLine r)))) as [E1 E2].
    split; [rewrite E1|rewrite E2]; reflexivity.
Qed.

Lemma fields_onTestsEnd (now : Date) (status : string) (e : Errors) (r : Min) :
  fields (onTestsEnd deps now status e r) = fields r.
Proof.
  unfold onTestsEnd.
  destruct (total (finalStats (blankLine r)) =? 0); [reflexivity|].
  simpl. destruct (fields_printStack e (blankLine r)) as [E _].
  destruct (String.eqb status "passed"); exact E.
Qed.

Lemma total_bumpStatus (status : string) (f : FinalStats) :
  total (bumpStatus status f) = total f.
Proof.
  unfold bumpStatus. repeat (destruct (String.eqb _ _); [reflexivity|]). reflexivity.
Qed.

Lemma suiteTests_snoc (l : list TestSuite) (s : TestSuite) :
  suiteTests (l ++ [s]) = suiteTests l + ts_test s.
Proof. unfold suiteTests. induction l as [|x l IH]; simpl; [lia|rewrite IH; lia]. Qed.

Lemma suiteTimes_snoc (l : list TestSuite) (s : TestSuite) :
  suiteTimes (l ++ [s]) = suiteTimes l + ts_time s.
Proof. unfold suiteTimes. induction l as [|x l IH]; simpl; [lia|rewrite IH; lia]. Qed.

(** Every handler keeps the counters of the final stats consistent. *)
Lemma statsConsistent_handle (now : Date) (ev : Event) (r : Min) :
  statsConsistent (finalStats r) -> statsConsistent (finalStats (handle deps now ev r)).
Proof.
  intros Hc. destruct ev as [e|t| |st er|]; simpl; try exact Hc.
  - destruct (counted e) eqn:Hk; [|rewrite (onTestEnd_uncounted e r Hk); exact Hc].
    destruct (onTestEnd_counted e r Hk) as [Hf _]. unfold fields in Hf.
    injection Hf as _ _ _ _ Hs _ _ _ _. rewrite Hs.
    apply counted_In in Hk. unfold statsConsistent in *.
    destruct Hk as [H|[H|[H|[H|[]]]]]; rewrite <- H;
      destruct (te_regression e); simpl; lia.
  - pose proof (fields_onTestsEnd now st er r) as Hf. unfold fields in Hf.
    injection Hf as _ _ _ _ Hs _ _ _ _. rewrite Hs. exact Hc.
Qed.

(** Every handler keeps the suites and the counters in step with the final
    stats and with the duration of all suites. *)
Lemma accounts_handle (now : Date) (ev : Event) (r : Min) :
  suiteTests (testSuites r) + count r = total (finalStats r) ->
  suiteTests (testSuites (handle deps now ev r)) + count (handle deps now ev r)
  = total (finalStats (handle deps now ev r)).
Proof.
  intros Hc. destruct ev as [e|t| |st er|]; simpl; try exact Hc.
  - destruct (counted e) eqn:Hk; [|rewrite (onTestEnd_uncounted e r Hk); exact Hc].
    destruct (onTestEnd_counted e r Hk) as [Hf _]. unfold fields in Hf.
    injection Hf as _ _ _ Hss Hs Hn _ _ _. rewrite Hss, Hs, Hn.
    destruct (te_regression e); simpl; rewrite total_bumpStatus; lia.
  - rewrite suiteTests_snoc. simpl. lia.
  - pose proof (fields_onTestsEnd now st er r) as Hf. unfold fields in Hf.
    injection Hf as _ _ _ Hss Hs Hn _ _ _. rewrite Hss, Hs, Hn. exact Hc.
Qed.

Lemma times_handle (now : Date) (ev : Event) (r : Min) :
  suiteTimes (testSuites r) = testSuitesDuration r ->
  suiteTimes (testSuites (handle deps now ev r))
  = testSuitesDuration (handle deps now ev r).
Proof.
  intros Hc. destruct ev as [e|t| |st er|]; simpl; try exact Hc.
  - destruct (counted e) eqn:Hk; [|rewrite (onTestEnd_uncounted e r Hk); exact Hc].
    destruct (onTestEnd_counted e r Hk) as [Hf _]. unfold fields in Hf.
    injection Hf as _ _ _ Hss _ _ _ Hd _. rewrite Hss, Hd. exact Hc.
  - rewrite suiteTimes_snoc. simpl. lia.
  - pose proof (fields_onTestsEnd now st er r) as Hf. unfold fields in Hf.
    injection Hf as _ _ _ Hss _ _ _ Hd _. rewrite Hss, Hd. exact Hc.
Qed.

(** The fields after a sequence of [test:end] events. *)
Lemma testEnds_fields (es : list TestEnd) (r : Min) :
  activeGroup (testEnds deps es r) = activeGroup r
  /\ testSuite (testEnds deps es r) = testSuite r ++ map caseOf (List.filter counted es)
  /\ testSuites (testEnds deps es r) = testSuites r
  /\ count (testEnds deps es r) = count r + Z.of_nat (length (List.filter counted es))
  /\ failCount (testEnds deps es r) = failCount r + withError (List.filter counted es)
  /\ testSuitesDuration (testEnds deps es r) = testSuitesDuration r
  /\ testSuiteDuration (testEnds deps es r)
     = testSuiteDuration r + durations (List.filter counted es).
Proof.
  unfold testEnds. revert r; induction es as [|e es IH]; intros r.
  - simpl. rewrite app_nil_r. repeat split; lia.
  - cbn [fold_left List.filter].
    destruct (IH (onTestEnd deps e r)) as (A & B & C & D & E & F & G).
    rewrite A, B, C, D, E, F, G. clear IH A B C D E F G.
    destruct (counted e) eqn:Hk.
    + destruct (onTestEnd_counted e r Hk) as [Hf _]. unfold fields in Hf.
      injection Hf as H1 _ H3 H4 _ H6 H7 H8 H9.
      rewrite H1, H3, H4, H6, H7, H8, H9.
      cbn [map length withError durations fold_right].
      rewrite <- app_assoc. simpl app.
      unfold withError, durations.
      repeat split; try reflexivity; try lia.
      destruct (te_error e); lia.
    + rewrite (onTestEnd_uncounted e r Hk). repeat split; reflexivity.
Qed.

Lemma grows_refl (r : Min) : grows r r.
Proof. split; exists []; rewrite app_nil_r; reflexivity. Qed.

Lemma grows_trans (r1 r2 r3 : Min) : grows r1 r2 -> grows r2 r3 -> grows r1 r3.
Proof.
  intros [[l1 H1] [x1 G1]] [[l2 H2] [x2 G2]]. split.
  - exists (l1 ++ l2). rewrite H2, H1, app_assoc. reflexivity.
  - exists (x1 ++ x2). rewrite G2, G1, app_assoc. reflexivity.
Qed.

Lemma grows_console_log (t : string) (r : Min) : grows r (console_log t r).
Proof. split; [exists [t]|exists []; rewrite app_nil_r]; reflexivity. Qed.

Lemma grows_log_lines (ls : list string) (r : Min) :
  grows r (fold_left (fun acc line => log line acc) ls r).
Proof.
  revert r; induction ls as [|l ls IH]; intros r; simpl; [apply grows_refl|].
  eapply grows_trans; [|apply IH]. apply grows_console_log.
Qed.

Lemma grows_printError (f : Failure) (i : Z) (r : Min) : grows r (printError deps f i r).
Proof.
  unfold printError.
  eapply grows_trans; [|apply grows_console_log].
  destruct (_hasDiff (f_error f)).
  - eapply grows_trans; [|apply grows_log_lines].
    eapply grows_trans; apply grows_console_log.
  - eapply grows_trans; apply grows_console_log.
Qed.

Lemma grows_printErrors (l : list Failure) (i : Z) (r : Min) :
  grows r (printErrors deps l i r).
Proof.
  revert i r; induction l as [|f l IH]; intros i r; simpl; [apply grows_refl|].
  eapply grows_trans; [apply grows_printError | apply IH].
Qed.

Lemma grows_printStack (e : Errors) (r : Min) : grows r (printStack deps e r).
Proof.
  destruct e as [|l|f]; unfold printStack; [apply grows_refl| |].
  - eapply grows_trans; [|apply grows_printErrors].
    eapply grows_trans; [|apply grows_console_log].
    eapply grows_trans; apply grows_console_log.
  - eapply grows_trans; [|apply grows_printError].
    eapply grows_trans; [|apply grows_console_log].
    eapply grows_trans; apply grows_console_log.
Qed.

Lemma grows_onTestEnd (e : TestEnd) (r : Min) : grows r (onTestEnd deps e r).
Proof.
  unfold onTestEnd.
  destruct (indexOf testsStatuses (te_status e) <=? -1); [apply grows_refl|].
  destruct (str_truthy (te_regressionMessage e)); split; simpl;
    try (exists []; rewrite app_nil_r; reflexivity).
  - eexists. rewrite <- app_assoc. reflexivity.
  - eexists. reflexivity.
Qed.

Lemma grows_onTestsEnd (now : Date) (status : string) (e : Errors) (r : Min) :
  grows r (onTestsEnd deps now status e r).
Proof.
  unfold onTestsEnd.
  destruct (total (finalStats (blankLine r)) =? 0).
  - eapply grows_trans; apply grows_console_log.
  - cbv zeta. unfold generateReport.
    eapply grows_trans; [|apply grows_console_log].
    eapply grows_trans; [apply grows_console_log|].
    eapply grows_trans; [apply grows_printStack|].
    match goal with |- grows ?a ?b =>
      assert (G : grows a (blankLine (if String.eqb status "passed"
                 then log (chalk deps "bgGreen.white" " PASSED ") a
                 else log (chalk deps "bgRed.white" " FAILED ") a))) end.
    { eapply grows_trans; [|apply grows_console_log].
      destruct (String.eqb status "passed"); apply grows_console_log. }
    eapply grows_trans; [exact G|].
    split; [exists []; rewrite app_nil_r; reflexivity | eexists; reflexivity].
Qed.

Lemma grows_handle (now : Date) (ev : Event) (r : Min) : grows r (handle deps now ev r).
Proof.
  destruct ev as [e|t| |st er|]; simpl.
  - apply grows_onTestEnd.
  - split; [eexists; simpl; rewrite <- app_assoc; reflexivity
           | exists []; rewrite app_nil_r; reflexivity].
  - split; exists []; rewrite app_nil_r; reflexivity.
  - apply grows_onTestsEnd.
  - split; exists []; rewrite app_nil_r; reflexivity.
Qed.

End WithDeps.

(** X1. Whatever events arrive, the counters of the final stats stay
    consistent: [total] is the sum of [passed], [failed], [skipped] and
    [todo], none of them is negative, and [regression] lies between 0 and
    [total]. *)
Theorem stats_stay_consistent (deps : Deps) (evs : list (Date * Event)) (r : Min) :
  statsConsistent (finalStats r) ->
  statsConsistent (finalStats (handleAll deps evs r)).
Proof.
  revert r; induction evs as [|[now ev] evs IH]; intros r H; simpl; [exact H|].
  apply IH. apply statsConsistent_handle. exact H.
Qed.

Lemma stats_stay_consistent_witness :
  statsConsistent (finalStats init)
  /\ statsConsistent (finalStats (handleAll plainDeps groupedRun init)).
Proof.
  assert (H : statsConsistent (finalStats init)).
  { unfold statsConsistent. simpl. lia. }
  split; [exact H | exact (stats_stay_consistent plainDeps groupedRun init H)].
Defined.

(** X2. The [test] attributes of the suites pushed so far, plus the
    counter [count] of the tests not yet in a suite, always add up to
    [finalStats.total]. *)
Theorem suites_account_for_total (deps : Deps) (evs : list (Date * Event)) (r : Min) :
  suiteTests (testSuites r) + count r = total (finalStats r) ->
  suiteTests (testSuites (handleAll deps evs r)) + count (handleAll deps evs r)
  = total (finalStats (handleAll deps evs r)).
Proof.
  revert r; induction evs as [|[now ev] evs IH]; intros r H; simpl; [exact H|].
  apply IH. apply accounts_handle. exact H.
Qed.

Lemma suites_account_for_total_witness :
  suiteTests (testSuites init) + count init = total (finalStats init)
  /\ suiteTests (testSuites (handleAll plainDeps groupedRun init))
     + count (handleAll plainDeps groupedRun init)
     = total (finalStats (handleAll plainDeps groupedRun init)).
Proof.
  assert (H : suiteTests (testSuites init) + count init = total (finalStats init))
    by reflexivity.
  split; [exact H | exact (suites_account_for_total plainDeps groupedRun init H)].
Defined.

(** X3. The duration written on [<testsuites>], [testSuitesDuration], is
    always the sum of the [time] attributes of the suites pushed so far. *)
Theorem suites_duration_sum (deps : Deps) (evs : list (Date * Event)) (r : Min) :
  suiteTimes (testSuites r) = testSuitesDuration r ->
  suiteTimes (testSuites (handleAll deps evs r))
  = testSuitesDuration (handleAll deps evs r).
Proof.
  revert r; induction evs as [|[now ev] evs IH]; intros r H; simpl; [exact H|].
  apply IH. apply times_handle. exact H.
Qed.

Lemma suites_duration_sum_witness :
  suiteTimes (testSuites init) = testSuitesDuration init
  /\ suiteTimes (testSuites (handleAll plainDeps groupedRun init))
     = testSuitesDuration (handleAll plainDeps groupedRun init).
Proof.
  assert (H : suiteTimes (testSuites init) = testSuitesDuration init) by reflexivity.
  split; [exact H | exact (suites_duration_sum plainDeps groupedRun init H)].
Defined.

(** X4. A group start, then test ends, then a group end push one suite.
    Its test cases are the counted tests of the group, in order. Its
    [test], [failures] and [time] are those of these tests added to what
    the module counters held at the group start, which the group start
    does not reset. The group end leaves the three counters at zero and
    no group active. *)
Theorem group_end_builds_suite (deps : Deps) (title : string) (es : list TestEnd)
    (r : Min) :
  let cs := List.filter counted es in
  let r' := onGroupEnd (testEnds deps es (onGroupStart deps title r)) in
  testSuites r'
  = testSuites r
    ++ [{| ts_failures := failCount r + withError cs;
           ts_test := count r + Z.of_nat (length cs);
           ts_time := testSuiteDuration r + durations cs;
           ts_testcase := map caseOf cs |}]
  /\ count r' = 0 /\ failCount r' = 0 /\ testSuiteDuration r' = 0
  /\ testSuitesDuration r'
     = testSuitesDuration r + (testSuiteDuration r + durations cs)
  /\ activeGroup r' = None.
Proof.
  intros cs r'. subst r'.
  destruct (testEnds_fields deps es (onGroupStart deps title r))
    as (A & B & C & D & E & F & G).
  unfold onGroupEnd. simpl. rewrite B, C, D, E, F, G. simpl.
  repeat split; reflexivity.
Qed.

(** X5. As long as no counted test ends, [finalStats.total] stays zero and
    nothing is written to [result.xml], end events included. *)
Theorem no_counted_test_no_report (deps : Deps) (evs : list (Date * Event)) (r : Min) :
  total (finalStats r) = 0 ->
  forallb (fun p => negb (isCountedTestEnd (snd p))) evs = true ->
  total (finalStats (handleAll deps evs r)) = 0
  /\ result_xml (handleAll deps evs r) = result_xml r.
Proof.
  revert r; induction evs as [|[now ev] evs IH]; intros r Ht H; simpl in *;
    [split; [exact Ht|reflexivity]|].
  apply andb_prop in H as [H1 H2].
  assert (K : total (finalStats (handle deps now ev r)) = 0
              /\ result_xml (handle deps now ev r) = result_xml r).
  { destruct ev as [e|t| |st er|]; simpl in *; try (split; [exact Ht|reflexivity]).
    - rewrite (onTestEnd_uncounted deps e r); [split; [exact Ht|reflexivity]|].
      destruct (counted e); [discriminate H1|reflexivity].
    - unfold onTestsEnd. change (finalStats (blankLine r)) with (finalStats r).
      rewrite Ht. simpl. split; [exact Ht|reflexivity]. }
  destruct K as [K1 K2]. destruct (IH _ K1 H2) as [I1 I2].
  split; [exact I1 | rewrite I2; exact K2].
Qed.

Lemma no_counted_test_no_report_witness :
  total (finalStats (handleAll plainDeps emptyRun init)) = 0
  /\ result_xml (handleAll plainDeps emptyRun init) = [].
Proof.
  apply (no_counted_test_no_report plainDeps emptyRun init); reflexivity.
Defined.

(** X6. An end event that finds at least one counted test appends one
    chunk to [result.xml]: the XML of the suites pushed so far, with the
    duration of all suites. What was in the file stays. *)
Theorem end_appends_one_xml (deps : Deps) (now : Date) (status : string)
    (errors : Errors) (r : Min) :
  total (finalStats r) <> 0 ->
  result_xml (onTestsEnd deps now status errors r) = result_xml r ++ [xmlOf deps r].
Proof.
  intros Ht. unfold onTestsEnd. change (finalStats (blankLine r)) with (finalStats r).
  destruct (Z.eqb_spec (total (finalStats r)) 0) as [E|_]; [contradiction|].
  destruct (fields_printStack deps errors (blankLine r)) as [Hf Hx].
  unfold fields in Hf. injection Hf as _ _ _ Hss _ _ _ Hd _.
  simpl. unfold xmlOf.
  destruct (String.eqb status "passed"); simpl; rewrite Hx, Hss, Hd; reflexivity.
Qed.

Lemma end_appends_one_xml_witness :
  length (result_xml (handleAll plainDeps groupedRun init)) = 1%nat.
Proof.
  change (handleAll plainDeps groupedRun init)
    with (onTestsEnd plainDeps evening "failed" NoErrors
            (handleAll plainDeps (removelast groupedRun) init)).
  rewrite end_appends_one_xml; [reflexivity | vm_compute; discriminate].
Defined.



(** X8. No handler takes back output: after any events the console and
    [result.xml] are what they were, with more at the end. *)
Theorem output_only_grows (deps : Deps) (evs : list (Date * Event)) (r : Min) :
  grows r (handleAll deps evs r).
Proof.
  revert r; induction evs as [|[now ev] evs IH]; intros r; simpl; [apply grows_refl|].
  eapply grows_trans; [apply grows_handle | apply IH].
Qed.

End JUnitListExtraProofs.

(** * Further properties of the slim runner *)

Module SlimRunnerExtraProofs.
Import SlimRunner Samples SlimRunnerMeasures RunnerScripts.

Local Open Scope list_scope.

(** Brings a state built with the setters to a record of its fields. *)
Ltac norm :=
  unfold pushGroup, set_heap, set_groups, set_activeGroup;
  cbn [heap groups activeGroup runnerOptions reporterFn beforeHooks afterHooks
       loader runner regexpLog].


Lemma inv_bind (P : State -> Prop) (r : Res) (k : State -> Res) :
  P (state_of r) -> (forall st, P st -> P (state_of (k st))) -> P (state_of (bind r k)).
Proof. intros Hr Hk. destruct r as [st|v st|c st]; simpl in *; auto. Qed.

Lemma wellFormed_ext (st st' : State) :
  length (heap st') = length (heap st) -> groups st' = groups st ->
  activeGroup st' = activeGroup st -> wellFormed st -> wellFormed st'.
Proof. unfold wellFormed. intros -> -> ->. auto. Qed.

Lemma wellFormed_pushGroup (title : string) (st : State) :
  wellFormed st -> wellFormed (pushGroup title st).
Proof.
  intros [Hg _]. unfold wellFormed, pushGroup. simpl. rewrite length_app. simpl. split.
  - apply Forall_app. split.
    + eapply Forall_impl; [exact Hg|]. simpl. intros; lia.
    + constructor; [lia|constructor].
  - split; [lia|]. apply in_or_app. right. left. reflexivity.
Qed.

Lemma wellFormed_deactivate (st : State) :
  wellFormed st -> wellFormed (set_activeGroup None st).
Proof. intros [Hg _]. split; [exact Hg|exact I]. Qed.

Lemma wellFormed_reset (st : State) : wellFormed (reset st).
Proof. split; [constructor|exact I]. Qed.

Lemma wellFormed_alter (f : Group -> Group) (a : nat) (st : State) :
  wellFormed st -> wellFormed (set_heap (alter f a (heap st)) st).
Proof.
  apply wellFormed_ext; [|reflexivity|reflexivity]. simpl. apply length_alter.
Qed.

(** [addTest] always returns. *)
Lemma addTest_returns (title : string) (cb : FnId) (o : TestOptions) (st : State) :
  exists st', addTest title cb o st = Ok st'.
Proof.
  unfold addTest. destruct (activeGroup st) as [a|] eqn:Ha.
  - rewrite Ha. eexists; reflexivity.
  - simpl. eexists; reflexivity.
Qed.

Lemma wellFormed_addTest (title : string) (cb : FnId) (o : TestOptions) (st : State) :
  wellFormed st -> wellFormed (state_of (addTest title cb o st)).
Proof.
  intros H. unfold addTest. destruct (activeGroup st) as [a|] eqn:Ha.
  - rewrite Ha. simpl. apply wellFormed_alter. exact H.
  - simpl. apply (wellFormed_alter _ _ (pushGroup "root" st)).
    apply wellFormed_pushGroup. exact H.
Qed.

Section WithEnv.
Variable env : Env.

(** [configure] leaves the groups alone, whether it returns or throws. *)
Lemma configureFields_frame (o : ConfigureOptions) (st : State) :
  heap (configureFields o st) = heap st
  /\ groups (configureFields o st) = groups st
  /\ activeGroup (configureFields o st) = activeGroup st
  /\ runner (configureFields o st) = runner st.
Proof.
  destruct o as [[?|] [?|] [?|] [?|] [?|] [?|] [?|] ?]; repeat split; reflexivity.
Qed.

Lemma configure_frame (o : ConfigureOptions) (st : State) :
  heap (state_of (configure env o st)) = heap st
  /\ groups (state_of (configure env o st)) = groups st
  /\ activeGroup (state_of (configure env o st)) = activeGroup st
  /\ runner (state_of (configure env o st)) = runner st.
Proof.
  unfold configure. destruct (negb _); [repeat split; reflexivity|].
  destruct (configureFields_frame o st) as (A & B & C & D).
  unfold configureGrep.
  destruct (o_grep o) as [[s|r]|]; simpl; auto.
  destruct (str_truthy s); auto.
  destruct (regexp_syntax_ok env s); simpl; auto.
Qed.

Lemma wellFormed_configure (o : ConfigureOptions) (st : State) :
  wellFormed st -> wellFormed (state_of (configure env o st)).
Proof.
  destruct (configure_frame o st) as (A & B & C & _).
  apply wellFormed_ext; [rewrite A; reflexivity|exact B|exact C].
Qed.

Lemma wellFormed_exec (s : Script) :
  forall self st, wellFormed st -> wellFormed (state_of (exec env s self st)).
Proof.
  induction s as [|o title cb rest IH|title body IHb rest IHr|kind fn rest IH
                 |o rest IH|rest IH|v]; intros self st H; simpl.
  - exact H.
  - apply inv_bind; [apply wellFormed_addTest; exact H | intros; apply IH; assumption].
  - apply inv_bind; [|intros; apply IHr; assumption].
    unfold group. apply inv_bind.
    + apply IHb. apply wellFormed_pushGroup. exact H.
    + intros st2 H2. apply wellFormed_deactivate. exact H2.
  - destruct self as [a|]; [|exact H].
    apply IH. apply wellFormed_alter. exact H.
  - apply inv_bind; [apply wellFormed_configure; exact H | intros; apply IH; assumption].
  - apply IH. apply wellFormed_reset.
  - exact H.
Qed.





Lemma wellFormed_listed (st : State) : wellFormed st -> activeListed st.
Proof.
  unfold wellFormed, activeListed. intros [_ H].
  destruct (activeGroup st); [apply H|exact I].
Qed.

(** Declarations on the group of the callback, with what comes next. *)
Lemma exec_flatThen (ds : list GroupDecl) (rest : Script) (g : Group)
    (h0 : list Group) (st : State) :
  heap st = h0 ++ [g] -> activeGroup st = Some (length h0) ->
  exec env (flatThen ds rest) (Some (length h0)) st
  = exec env rest (Some (length h0)) (set_heap (h0 ++ [fold_left applyDecl ds g]) st).
Proof.
  revert g st; induction ds as [|d ds IH]; intros g st Hh Ha; simpl.
  - rewrite <- Hh, SlimRunnerProofs.state_eta. reflexivity.
  - destruct d as [o title cb|kind fn]; simpl.
    + rewrite (SlimRunnerProofs.addTest_active title cb o st h0 g Hh Ha). simpl.
      rewrite (IH (Group_test title cb o g)); [reflexivity|reflexivity|exact Ha].
    + rewrite Hh, SlimRunnerProofs.alter_last.
      rewrite (IH (Group_hook kind fn g)); [reflexivity|reflexivity|exact Ha].
Qed.

(** [test.group] with a callback that only declares on its group. *)
Lemma group_flat (title : string) (ds : list GroupDecl) (st : State) :
  group title (fun a => exec env (flat ds) (Some a)) st
  = Ok (set_activeGroup None
          (set_groups (groups st ++ [length (heap st)])
             (set_heap (heap st ++ [groupOf (runnerOptions st) (title, ds)]) st))).
Proof.
  unfold group, groupOf.
  rewrite (SlimRunnerProofs.exec_flat env ds (Group_new title (runnerOptions st)) (heap st));
    reflexivity.
Qed.

End WithEnv.

(** ** The declaration API *)

(** X9. No reference dangles: when the addresses in [groups] and in
    [activeGroup] are those of allocated groups and the active group is in
    the list, this is still so after any script, whether it returns or
    throws. It is so when the module is loaded. *)
Theorem references_never_dangle (env : Env) (s : Script) (self : option nat)
    (st : State) :
  wellFormed init
  /\ (wellFormed st -> wellFormed (state_of (exec env s self st))).
Proof.
  split; [split; [constructor|exact I]|]. apply wellFormed_exec.
Qed.

Lemma references_never_dangle_witness :
  wellFormed (state_of (exec calmEnv twoGroupsAndRoot None init)).
Proof.
  destruct (references_never_dangle calmEnv twoGroupsAndRoot None init) as [Hi H].
  exact (H Hi).
Defined.



(** X11. Once a test is declared, [configure] is refused: a call of
    [configure] that follows a declaration throws its error, whatever its
    options, and what comes after it in the script is not run. *)
Theorem configure_after_declaration_throws (env : Env) (o : TestOptions)
    (title : string) (cb : FnId) (self : option nat) (st : State) :
  wellFormed st ->
  exists st1, addTest title cb o st = Ok st1
    /\ forall c rest,
         exec env (STest o title cb (SConfigure c rest)) self st
         = Throw configureError st1.
Proof.
  intros Hw. destruct (addTest_returns title cb o st) as [st1 E1].
  exists st1. split; [exact E1|]. intros c rest. simpl. rewrite E1. simpl.
  rewrite (SlimRunnerProofs.configure_with_groups env c st1); [reflexivity|].
  exact (SlimRunnerProofs.addTest_listed title cb o st st1 (wellFormed_listed st Hw) E1).
Qed.

Lemma configure_after_declaration_throws_witness :
  exists st1,
    exec calmEnv (STest Skip "a" 1%nat (SConfigure bailFast (STest NoOptions "b" 2%nat SEnd)))
      None init
    = Throw configureError st1
    /\ runnerOptions st1 = runnerOptions init /\ testCount st1 = 1%nat.
Proof.
  assert (Hi : wellFormed init) by (split; [constructor|exact I]).
  destruct (configure_after_declaration_throws calmEnv Skip "a" 1%nat None init Hi)
    as (st1 & E1 & H).
  exists st1. split; [apply H|].
  injection E1 as <-. split; reflexivity.
Defined.

(** X12. When the callback of [test.group] throws, the exception leaves
    [test.group], the group with what was declared so far stays in the
    list, and it stays active: a test declared next at top level is put in
    it. *)
Theorem throwing_callback_leaves_group_active (env : Env) (title : string)
    (ds : list GroupDecl) (v : JsVal) (st : State) :
  let a := length (heap st) in
  let g := groupOf (runnerOptions st) (title, ds) in
  let st' := set_groups (groups st ++ [a])
               (set_activeGroup (Some a) (set_heap (heap st ++ [g]) st)) in
  group title (fun a => exec env (flatThen ds (SThrow v)) (Some a)) st = Throw v st'
  /\ forall o t cb,
       addTest t cb o st' = Ok (set_heap (heap st ++ [Group_test t cb o g]) st').
Proof.
  intros a g st'. split.
  - unfold group.
    rewrite (exec_flatThen env ds (SThrow v) (Group_new title (runnerOptions st)) (heap st));
      reflexivity.
  - intros o t cb.
    apply (SlimRunnerProofs.addTest_active t cb o st' (heap st) g); reflexivity.
Qed.

(** X13. Groups do not nest: a call of [test.group] inside a callback
    pushes a group beside the outer one and leaves no group active, so the
    tests the outer callback declares after it are put in a third group,
    titled ["root"]. The outer group keeps what was declared before the
    inner call. *)
Theorem nested_group_splits_outer (env : Env) (outer inner : string)
    (ds1 ds2 : list GroupDecl) (ts : list Test) (st : State) :
  ts <> [] ->
  let n := length (heap st) in
  group outer
    (fun a => exec env (flatThen ds1 (SGroup inner (flat ds2) (declare ts SEnd))) (Some a))
    st
  = Ok (set_activeGroup None
          (set_groups (groups st ++ [n; S n; S (S n)])
             (set_heap
                (heap st ++ [groupOf (runnerOptions st) (outer, ds1);
                             groupOf (runnerOptions st) (inner, ds2);
                             {| g_title := "root"; g_options := runnerOptions st;
                                g_tests := ts; g_hooks := noHooks |}])
                st))).
Proof.
  intros Hts n. subst n.
  destruct st as [h gs ag ro rf bh ah ld rn lg].
  unfold group. norm.
  rewrite (exec_flatThen env ds1 _ (Group_new outer ro) h); [|reflexivity|reflexivity].
  norm. cbn [exec].
  rewrite group_flat. norm. cbn [bind].
  destruct ts as [|t ts]; [contradiction|]. cbn [declare exec].
  rewrite SlimRunnerProofs.addTest_no_active by reflexivity. norm. cbn [bind].
  rewrite (SlimRunnerProofs.exec_declare env ts SEnd (Some (length h))
             (Group_test (t_title t) (t_callback t) (t_options t) (Group_new "root" ro))
             ((h ++ [fold_left applyDecl ds1 (Group_new outer ro)])
              ++ [groupOf ro (inner, ds2)])).
  - norm. cbn [exec bind]. rewrite SlimRunnerProofs.addTests_eq.
    unfold groupOf. cbn [fst snd g_title g_options g_tests g_hooks Group_test Group_new app].
    rewrite !length_app. cbn [length Nat.add].
    rewrite <- !app_assoc. cbn [app].
    destruct t as [tt tc to]. cbn [t_title t_callback t_options]. norm.
    replace (length h + 1)%nat with (S (length h)) by lia.
    replace (S (length h) + 1)%nat with (S (S (length h))) by lia.
    reflexivity.
  - reflexivity.
  - norm. rewrite !length_app. cbn [length]. f_equal; lia.
Qed.

Lemma nested_group_splits_outer_witness :
  exists st',
    group "outer"
      (fun a => exec calmEnv
                  (flatThen hookAndTests
                     (SGroup "inner" (flat [])
                        (declare [{| t_title := "late"; t_callback := 5%nat;
                                     t_options := NoOptions |}] SEnd)))
                  (Some a))
      init = Ok st'
    /\ groupTitles st' = ["outer"; "inner"; "root"]
    /\ map (fun g => map t_title (g_tests g)) (heap st') = [["t"; "u"]; []; ["late"]].
Proof.
  eexists. split.
  - apply (nested_group_splits_outer calmEnv "outer" "inner" hookAndTests []). discriminate.
  - split; reflexivity.
Defined.

(** X14. Groups are listed in the order of their declaration: calls of
    [test.group] one after another, with callbacks that declare on their
    own group, put one group each at the end of the heap and of the list,
    in order, and leave no group active. *)
Theorem groups_in_declaration_order (env : Env) (gs : list (string * list GroupDecl)) :
  forall (self : option nat) (st : State),
    exec env (groupsScript gs) self st
    = Ok (set_activeGroup (match gs with [] => activeGroup st | _ => None end)
            (set_groups (groups st ++ seq (length (heap st)) (length gs))
               (set_heap (heap st ++ map (groupOf (runnerOptions st)) gs) st))).
Proof.
  induction gs as [|[title ds] gs IH]; intros self st.
  - simpl. rewrite !app_nil_r. destruct st; reflexivity.
  - cbn [groupsScript exec]. rewrite group_flat. cbn [bind]. rewrite IH.
    simpl. rewrite length_app. simpl.
    replace (length (heap st) + 1)%nat with (S (length (heap st))) by lia.
    rewrite <- !app_assoc. simpl. destruct gs; reflexivity.
Qed.

(** ** [configure] *)

(** X15. When [configure] returns, every option that was given is in its
    variable and every variable whose option was absent has the value it
    had: the reporter, [bail], [timeout], the glob and the filter of the
    loader, the before hooks and the after hooks. *)
Theorem configure_stores_given_options (env : Env) (o : ConfigureOptions)
    (st st' : State) :
  configure env o st = Ok st' ->
  reporterFn st' = given (o_reporterFn o) (reporterFn st)
  /\ bail (runnerOptions st') = given (o_bail o) (bail (runnerOptions st))
  /\ timeout (runnerOptions st') = given (o_timeout o) (timeout (runnerOptions st))
  /\ l_files (loader st') = givenSome (o_files o) (l_files (loader st))
  /\ l_filter (loader st') = givenSome (o_filter o) (l_filter (loader st))
  /\ beforeHooks st' = given (o_before o) (beforeHooks st)
  /\ afterHooks st' = given (o_after o) (afterHooks st).
Proof.
  unfold configure. destruct (negb _); [discriminate|].
  unfold configureGrep. intros H.
  assert (E : exists l g,
             st' = set_regexpLog l
                     (set_runnerOptions
                        {| bail := bail (runnerOptions (configureFields o st));
                           timeout := timeout (runnerOptions (configureFields o st));
                           grep := g |} (configureFields o st))).
  { destruct (o_grep o) as [[s|r]|].
    - destruct (str_truthy s).
      + destruct (regexp_syntax_ok env s); [|discriminate H].
        injection H as <-. eexists _, _. reflexivity.
      + injection H as <-. exists (regexpLog (configureFields o st)),
          (grep (runnerOptions (configureFields o st))).
        destruct (configureFields o st) as [? ? ? [? ? ?] ? ? ? ? ? ?]; reflexivity.
    - injection H as <-. exists (regexpLog (configureFields o st)), (Some r). reflexivity.
    - injection H as <-. exists (regexpLog (configureFields o st)),
        (grep (runnerOptions (configureFields o st))).
      destruct (configureFields o st) as [? ? ? [? ? ?] ? ? ? ? ? ?]; reflexivity. }
  destruct E as (l & g & ->). clear H.
  destruct o as [[?|] [?|] [?|] [?|] [?|] [?|] [?|] ?]; repeat split; reflexivity.
Qed.

Lemma configure_stores_given_options_witness :
  exists st', configure calmEnv manyOptions init = Ok st'
    /\ reporterFn st' = 9%nat /\ bail (runnerOptions st') = true
    /\ timeout (runnerOptions st') = 2000 /\ beforeHooks st' = [4%nat]
    /\ afterHooks st' = [].
Proof.
  eexists. split; [reflexivity|].
  destruct (configure_stores_given_options calmEnv manyOptions init _ eq_refl)
    as (A & B & C & _ & _ & D & E).
  repeat split; assumption.
Defined.

(** X16. A call of [configure] that fails on [grep] is not undone: when
    [new RegExp] rejects the string, the error is thrown after the other
    options of the call have been stored; only [grep] keeps its value. *)
Theorem failed_configure_is_not_rolled_back (env : Env) (o : ConfigureOptions)
    (s : string) (st : State) :
  groups st = [] -> o_grep o = Some (GrepSource s) -> s <> "" ->
  regexp_syntax_ok env s = false ->
  exists st', configure env o st = Throw (regexpSyntaxError s) st'
    /\ reporterFn st' = given (o_reporterFn o) (reporterFn st)
    /\ bail (runnerOptions st') = given (o_bail o) (bail (runnerOptions st))
    /\ timeout (runnerOptions st') = given (o_timeout o) (timeout (runnerOptions st))
    /\ beforeHooks st' = given (o_before o) (beforeHooks st)
    /\ afterHooks st' = given (o_after o) (afterHooks st)
    /\ grep (runnerOptions st') = grep (runnerOptions st).
Proof.
  intros Hg Ho Hs Hbad.
  rewrite (SlimRunnerProofs.configure_without_groups env o st Hg).
  unfold configureGrep. rewrite Ho, (SlimRunnerProofs.str_truthy_true s Hs), Hbad.
  eexists. split; [reflexivity|]. clear Ho.
  destruct o as [[?|] [?|] [?|] [?|] [?|] [?|] [?|] ?]; repeat split; reflexivity.
Qed.

Lemma failed_configure_is_not_rolled_back_witness :
  exists st', configure calmEnv bailAndBadGrep init = Throw (regexpSyntaxError "(") st'
    /\ bail (runnerOptions st') = true /\ timeout (runnerOptions st') = 5000
    /\ grep (runnerOptions st') = None.
Proof.
  destruct (failed_configure_is_not_rolled_back calmEnv bailAndBadGrep "(" init)
    as (st' & E & _ & B & C & _ & _ & G); try reflexivity; [discriminate|].
  exists st'. repeat split; assumption.
Defined.

(** X17. [configure] never creates, drops or changes a group: the heap,
    the list of groups, the active group and the runner are the same after
    the call, whether it returns or throws. *)
Theorem configure_leaves_groups_alone (env : Env) (o : ConfigureOptions) (st : State) :
  heap (state_of (configure env o st)) = heap st
  /\ groups (state_of (configure env o st)) = groups st
  /\ activeGroup (state_of (configure env o st)) = activeGroup st
  /\ runner (state_of (configure env o st)) = runner st.
Proof. apply configure_frame. Qed.

(** ** [run] *)

Lemma andThen_inv (r : list Event * Res) (k : State -> list Event * Res)
    (tr : list Event) (res : Res) :
  andThen r k = (tr, res) ->
  (exists tr1 st1 tr2, r = (tr1, Ok st1) /\ k st1 = (tr2, res) /\ tr = tr1 ++ tr2)
  \/ (r = (tr, res) /\ forall st, res <> Ok st).
Proof.
  destruct r as [tr1 [st1|v st1|c st1]]; simpl; intros H.
  - left. destruct (k st1) as [tr2 r2] eqn:Ek. injection H as <- <-.
    exists tr1, st1, tr2. repeat split; [exact Ek].
  - right. injection H as <- <-. split; [reflexivity|]. intros; discriminate.
  - right. injection H as <- <-. split; [reflexivity|]. intros; discriminate.
Qed.

(** The hooks that were called are the first ones of the array, in order. *)
Lemma runHooks_prefix (env : Env) (ev : FnId -> Event) (hooks : list FnId) :
  forall st tr r, runHooks env ev hooks st = (tr, r) -> hookPrefix ev hooks tr.
Proof.
  induction hooks as [|h hooks IH]; intros st tr r H; cbn [runHooks] in H.
  - injection H as <- _. exists [], []. split; reflexivity.
  - apply andThen_inv in H as [(tr1 & st1 & tr2 & E & Hk & ->)|[E _]].
    + injection E as <- _. destruct (IH _ _ _ Hk) as (called & rest & -> & ->).
      exists (h :: called), rest. split; reflexivity.
    + injection E as <- _. exists [h], hooks. split; reflexivity.
Qed.

Lemma hookPrefix_events (ev : FnId -> Event) (hooks : list FnId) (tr : list Event)
    (e : Event) :
  hookPrefix ev hooks tr -> In e tr -> exists h, e = ev h.
Proof.
  intros (called & rest & _ & ->) Hin. apply in_map_iff in Hin as (h & <- & _).
  exists h; reflexivity.
Qed.

(** The files that were required are the first ones found, in order; all
    of them when the last one returned. *)
Lemma requireAll_prefix (env : Env) (files : list string) :
  forall st tr r, requireAll env files st = (tr, r) ->
    exists called rest, files = called ++ rest /\ tr = map ERequire called
      /\ (forall st', r = Ok st' -> rest = []).
Proof.
  induction files as [|f files IH]; intros st tr r H; cbn [requireAll] in H.
  - injection H as <- _. exists [], []. repeat split; reflexivity.
  - apply andThen_inv in H as [(tr1 & st1 & tr2 & E & Hk & ->)|[E Hn]].
    + injection E as <- _. destruct (IH _ _ _ Hk) as (called & rest & -> & -> & Hr).
      exists (f :: called), rest. repeat split; auto.
    + injection E as <- _. exists [f], files. repeat split; try reflexivity.
      intros st' ->. destruct (Hn st'). reflexivity.
Qed.

(** What the load phase emits: the call of the loader, then either the
    message and the exit of the guard, or the files it requires. *)
Lemma loadPhase_cases (env : Env) (st : State) (tr : list Event) (r : Res) :
  loadPhase env st = (tr, r) ->
  (tr = [ELoadFiles; ELog guardMessage; EExit 1] /\ r = Exit 1 st
   /\ exists files, loadFiles env (loader st) = inr files
                     /\ files <> [] /\ groups st <> [])
  \/ (exists called, tr = ELoadFiles :: map ERequire called
       /\ (forall st', r = Ok st' ->
            loadFiles env (loader st) = inr called
            /\ (called = [] \/ groups st = []))).
Proof.
  unfold loadPhase. destruct (loadFiles env (loader st)) as [v|files] eqn:El.
  - intros H. injection H as <- <-. right. exists []. split; [reflexivity|].
    intros; discriminate.
  - destruct files as [|f files].
    + simpl. intros H. injection H as <- <-. right. exists []. split; [reflexivity|].
      intros _ _. auto.
    + destruct (groups st) as [|a l] eqn:Eg.
      * simpl negb. cbn [andb]. intros H.
        apply andThen_inv in H as [(tr1 & st1 & tr2 & E & Hk & ->)|[E Hn]].
        -- injection E as <- <-.
           destruct (requireAll_prefix env _ _ _ _ Hk) as (called & rest & Hf & -> & Hr).
           right. exists called. split; [reflexivity|].
           intros st' Hst. rewrite (Hr st' Hst), app_nil_r in Hf. rewrite Hf. auto.
        -- injection E as _ <-. destruct (Hn st). reflexivity.
      * simpl. intros H. injection H as <- <-. left.
        repeat split. exists (f :: files). repeat split; discriminate.
Qed.

Lemma not_exit_in_hooks (ev : FnId -> Event) (hooks : list FnId) (tr : list Event)
    (c : Z) :
  (forall h, ev h <> EExit c) -> hookPrefix ev hooks tr -> ~ In (EExit c) tr.
Proof.
  intros Hev Hp Hin. destruct (hookPrefix_events ev hooks tr _ Hp Hin) as [h E].
  exact (Hev h (eq_sym E)).
Qed.

Lemma not_in_requires (e : Event) (called : list string) :
  (forall f, e <> ERequire f) -> ~ In e (map ERequire called).
Proof. intros He Hin. apply in_map_iff in Hin as (f & E & _). exact (He f (eq_sym E)). Qed.

(** X18. When a before hook throws, [run] rejects with what it threw: the
    hooks before it were called, in order, and nothing else was done: the
    loader is not asked, no file is required, the tests do not run, the
    after hooks are not called and the process does not exit. *)
Theorem before_hook_failure_aborts_run (env : Env) (exitProcess : bool)
    (st st1 : State) (tr : list Event) (v : JsVal) :
  beforePhase env st = (tr, Throw v st1) ->
  run env exitProcess st = (tr, Throw v st1)
  /\ hookPrefix EBeforeHook (beforeHooks st) tr.
Proof.
  intros H. split.
  - unfold run. rewrite H. reflexivity.
  - unfold beforePhase in H. apply runHooks_prefix in H. exact H.
Qed.

Lemma before_hook_failure_aborts_run_witness :
  beforeHooks withBeforeHooks = [1%nat; 2%nat]
  /\ exists st1, run crashingHookEnv true withBeforeHooks
                  = ([EBeforeHook 1%nat], Throw (JError "hook failed") st1).
Proof.
  split; [reflexivity|]. eexists.
  apply (before_hook_failure_aborts_run crashingHookEnv true withBeforeHooks).
  reflexivity.
Defined.

(** X19. When requiring a suite file throws, [run] rejects with what it
    threw: the files found before it were required, in order, the others
    are not, [runner.run()] is not called, no after hook is called and the
    process does not exit. *)
Theorem suite_file_failure_aborts_run (env : Env) (exitProcess : bool)
    (st st1 st2 : State) (tr1 tr2 : list Event) (files : list string) (v : JsVal) :
  beforePhase env st = (tr1, Ok st1) ->
  loadFiles env (loader st1) = inr files ->
  groups st1 = [] ->
  requireAll env files st1 = (tr2, Throw v st2) ->
  run env exitProcess st = (tr1 ++ ELoadFiles :: tr2, Throw v st2)
  /\ (exists called rest, files = called ++ rest /\ tr2 = map ERequire called)
  /\ ~ In ERunnerRun (tr1 ++ ELoadFiles :: tr2)
  /\ (forall h, ~ In (EAfterHook h) (tr1 ++ ELoadFiles :: tr2))
  /\ (forall c, ~ In (EExit c) (tr1 ++ ELoadFiles :: tr2)).
Proof.
  intros Hb Hl Hg Hr.
  assert (Hp : hookPrefix EBeforeHook (beforeHooks st) tr1).
  { unfold beforePhase in Hb. apply runHooks_prefix in Hb. exact Hb. }
  destruct (requireAll_prefix env files st1 tr2 _ Hr) as (called & rest & Hf & Ht & _).
  assert (Hno : forall e, (forall h, e <> EBeforeHook h) -> e <> ELoadFiles ->
                          (forall f, e <> ERequire f) ->
                          ~ In e (tr1 ++ ELoadFiles :: tr2)).
  { intros e H1 H2 H3 Hin. apply in_app_or in Hin as [Hin|[Hin|Hin]].
    - destruct (hookPrefix_events _ _ _ _ Hp Hin) as [h E]. exact (H1 h E).
    - exact (H2 (eq_sym Hin)).
    - rewrite Ht in Hin. exact (not_in_requires e called H3 Hin). }
  split; [|split; [exists called, rest; auto|]].
  - unfold run. rewrite Hb. cbn [andThen]. unfold loadPhase. rewrite Hl, Hg.
    rewrite andb_false_r. cbn [andThen]. rewrite Hr. reflexivity.
  - repeat split; intros; apply Hno; intros; discriminate.
Qed.

Lemma suite_file_failure_aborts_run_witness :
  exists st2, run brokenSuiteEnv true init
              = ([ELoadFiles; ERequire "test/a.spec.js"],
                 Throw (JError "Cannot find module") st2).
Proof.
  exists (set_runner {| rn_reporter := Some listReporter; rn_hasErrors := false |} init).
  apply (suite_file_failure_aborts_run brokenSuiteEnv true init
           (set_runner {| rn_reporter := Some listReporter; rn_hasErrors := false |} init)
           (set_runner {| rn_reporter := Some listReporter; rn_hasErrors := false |} init)
           [] [ERequire "test/a.spec.js"] ["test/a.spec.js"; "test/b.spec.js"]
           (JError "Cannot find module"));
    reflexivity.
Defined.

(** X20. [run] returns to its caller only when [exitProcess] is false, and
    then [runner.run()] was called, the list of groups is empty and no
    group is active: [configure] is accepted again. With [exitProcess]
    true, [run] never returns: it exits the process or rejects. *)
Theorem run_returns_reset (env : Env) (exitProcess : bool) (st st' : State)
    (tr : list Event) :
  run env exitProcess st = (tr, Ok st') ->
  exitProcess = false
  /\ In ERunnerRun tr
  /\ groups st' = [] /\ activeGroup st' = None
  /\ (forall o, grepCompiles env (o_grep o) = true ->
       exists st'', configure env o st' = Ok st'').
Proof.
  unfold run. intros H.
  apply andThen_inv in H as [(tr1 & st1 & tr1' & _ & H & ->)|[_ Hn]];
    [|destruct (Hn st'); reflexivity].
  apply andThen_inv in H as [(tr2 & st2 & tr2' & _ & H & ->)|[_ Hn]];
    [|destruct (Hn st'); reflexivity].
  destruct (tryRunner env st2) as [r0 caught].
  apply andThen_inv in H as [(tr3 & st3 & tr3' & E3 & H & ->)|[_ Hn]];
    [|destruct (Hn st'); reflexivity].
  injection E3 as <- _.
  apply andThen_inv in H as [(tr4 & st4 & tr4' & _ & H & ->)|[_ Hn]];
    [|destruct (Hn st'); reflexivity].
  unfold exitPhase in H. destruct exitProcess.
  - destruct (rn_hasErrors (runner st4) || truthy (hardException caught));
      discriminate H.
  - injection H as <- <-. split; [reflexivity|]. split.
    + apply in_or_app. right. apply in_or_app. right. left. reflexivity.
    + split; [reflexivity|]. split; [reflexivity|].
      intros o Ho.
      rewrite (SlimRunnerProofs.configure_without_groups env o (reset st4) eq_refl).
      unfold grepCompiles in Ho. unfold configureGrep.
      destruct (o_grep o) as [[s|r]|]; eauto.
      destruct (str_truthy s); simpl in Ho; [rewrite Ho|]; eauto.
Qed.

Lemma run_returns_reset_witness :
  exists st', run suiteEnv false init
              = ([ELoadFiles; ERequire "test/a.spec.js"; ERunnerRun], Ok st')
    /\ groups st' = [] /\ testCount st' = 1%nat
    /\ exists st'', configure suiteEnv bailFast st' = Ok st''.
Proof.
  eexists. split; [reflexivity|].
  destruct (run_returns_reset suiteEnv false init _ _ eq_refl) as (_ & _ & G & _ & C).
  split; [exact G|]. split; [reflexivity|]. apply C. reflexivity.
Defined.

(** X21. [run] exits the process with code 0 or 1 only, and it is the last
    thing it does. Code 0 needs [exitProcess] true, a call of
    [runner.run()] and [hasErrors] false at the end. *)
Theorem run_exit_codes (env : Env) (exitProcess : bool) (st : State)
    (tr : list Event) (r : Res) (c : Z) :
  run env exitProcess st = (tr, r) ->
  In (EExit c) tr ->
  (c = 0 \/ c = 1)
  /\ r = Exit c (state_of r)
  /\ (exists tr0, tr = tr0 ++ [EExit c])
  /\ (c = 0 -> exitProcess = true /\ In ERunnerRun tr
               /\ rn_hasErrors (runner (state_of r)) = false).
Proof.
  unfold run. intros H Hin.
  apply andThen_inv in H as [(tr1 & st1 & tr1' & E1 & H & ->)|[E1 _]].
  2:{ unfold beforePhase in E1. apply runHooks_prefix in E1.
      destruct (not_exit_in_hooks EBeforeHook _ _ c ltac:(intros; discriminate) E1 Hin). }
  assert (P1 : ~ In (EExit c) tr1).
  { unfold beforePhase in E1. apply runHooks_prefix in E1.
    apply (not_exit_in_hooks EBeforeHook _ _ c ltac:(intros; discriminate) E1). }
  apply in_app_or in Hin as [Hin|Hin]; [contradiction|].
  apply andThen_inv in H as [(tr2 & st2 & tr2' & E2 & H & ->)|[E2 _]].
  2:{ destruct (loadPhase_cases env st1 _ _ E2) as [(-> & -> & _)|(called & -> & _)].
      - destruct Hin as [Hin|[Hin|[Hin|[]]]]; try discriminate Hin.
        injection Hin as <-. split; [auto|]. split; [reflexivity|].
        split; [exists (tr1 ++ [ELoadFiles; ELog guardMessage]);
                rewrite <- app_assoc; reflexivity|].
        intros Hc; discriminate Hc.
      - destruct Hin as [Hin|Hin]; [discriminate Hin|].
        destruct (not_in_requires (EExit c) called ltac:(intros; discriminate) Hin). }
  assert (P2 : ~ In (EExit c) tr2).
  { destruct (loadPhase_cases env st1 _ _ E2) as [(_ & Hx & _)|(called & -> & _)];
      [discriminate Hx|].
    intros [Hx|Hx]; [discriminate Hx|].
    exact (not_in_requires (EExit c) called ltac:(intros; discriminate) Hx). }
  apply in_app_or in Hin as [Hin|Hin]; [contradiction|].
  destruct (tryRunner env st2) as [r0 caught].
  apply andThen_inv in H as [(tr3 & st3 & tr3' & E3 & H & ->)|[E3 _]].
  2:{ injection E3 as <- _. destruct Hin as [Hin|[]]. discriminate Hin. }
  injection E3 as <- _.
  apply in_app_or in Hin as [[Hin|[]]|Hin]; [discriminate Hin|].
  apply andThen_inv in H as [(tr4 & st4 & tr4' & E4 & H & ->)|[E4 _]].
  2:{ unfold afterPhase in E4. apply runHooks_prefix in E4.
      destruct (not_exit_in_hooks EAfterHook _ _ c ltac:(intros; discriminate) E4 Hin). }
  assert (P4 : ~ In (EExit c) tr4).
  { unfold afterPhase in E4. apply runHooks_prefix in E4.
    apply (not_exit_in_hooks EAfterHook _ _ c ltac:(intros; discriminate) E4). }
  apply in_app_or in Hin as [Hin|Hin]; [contradiction|].
  assert (Hrun : forall l, In ERunnerRun (tr1 ++ tr2 ++ [ERunnerRun] ++ l)).
  { intros l. apply in_or_app. right. apply in_or_app. right. left. reflexivity. }
  unfold exitPhase in H. destruct exitProcess.
  - destruct (rn_hasErrors (runner st4)) eqn:He; simpl in H.
    + injection H as <- <-. destruct Hin as [Hin|[]]. injection Hin as <-.
      split; [auto|]. split; [reflexivity|]. split.
      * exists (tr1 ++ tr2 ++ [ERunnerRun] ++ tr4). rewrite <- !app_assoc. reflexivity.
      * intros Hc; discriminate Hc.
    + destruct (truthy (hardException caught)); injection H as <- <-;
        destruct Hin as [Hin|[]]; injection Hin as <-;
        (split; [auto|]); (split; [reflexivity|]); split;
        try (exists (tr1 ++ tr2 ++ [ERunnerRun] ++ tr4); rewrite <- !app_assoc; reflexivity).
      * intros Hc; discriminate Hc.
      * intros _. split; [reflexivity|]. split; [apply Hrun|exact He].
  - injection H as <- <-. destruct Hin.
Qed.

Lemma run_exit_codes_witness :
  (0 = 0 \/ 0 = 1)
  /\ In ERunnerRun (fst (run calmEnv true init))
  /\ rn_hasErrors (runner (state_of (snd (run calmEnv true init)))) = false.
Proof.
  destruct (run_exit_codes calmEnv true init
              [ELoadFiles; ERunnerRun; EExit 0]
              (snd (run calmEnv true init)) 0 eq_refl) as (A & _ & _ & B).
  - right. right. left. reflexivity.
  - destruct (B eq_refl) as (_ & B2 & B3). split; [exact A|]. split; [exact B2|exact B3].
Defined.

(** X22. When the load phase of [run] returns, the loader answered, the
    guard found no file or no group, and every file found was required,
    once, in the order the loader gave. *)
Theorem load_phase_requires_all (env : Env) (st st' : State) (tr : list Event) :
  loadPhase env st = (tr, Ok st') ->
  exists files, loadFiles env (loader st) = inr files
    /\ (files = [] \/ groups st = [])
    /\ tr = ELoadFiles :: map ERequire files.
Proof.
  intros H. destruct (loadPhase_cases env st tr _ H) as [(_ & Hx & _)|(called & -> & Hk)];
    [discriminate Hx|].
  destruct (Hk st' eq_refl) as [Hl Hc]. exists called. auto.
Qed.

Lemma load_phase_requires_all_witness :
  exists files, loadFiles suiteEnv (loader init) = inr files
    /\ fst (loadPhase suiteEnv init) = ELoadFiles :: map ERequire files
    /\ testCount (state_of (snd (loadPhase suiteEnv init))) = 1%nat.
Proof.
  destruct (load_phase_requires_all suiteEnv init
              (state_of (snd (loadPhase suiteEnv init)))
              (fst (loadPhase suiteEnv init)))
    as (files & Hl & _ & Ht).
  - vm_compute. reflexivity.
  - exists files. split; [exact Hl|]. split; [exact Ht|reflexivity].
Defined.

End SlimRunnerExtraProofs.
